(** * F1 undercut predictor: the selection state machine of [static/js/app.js]

    The script is one class, [F1UndercutApp], whose methods mutate the fields
    of [this] and a handful of DOM elements, and suspend at [await fetch(..)].
    The embedding keeps that shape:

    - the fields of [this] and the DOM elements the script touches are records;
    - a method is a computation in a small state-and-exception monad [M]
      (the state is the whole application, an exception is a JavaScript
      throw, [try_catch] is [try { .. } catch { .. }]);
    - an [async] method is cut at its [await]: the part before it issues a
      request, the part after it ([.._resume]) runs when the reply arrives;
    - the browser is the environment: it feeds [event]s (user input, replies,
      timers) to [step], in any order. *)

From Stdlib Require Import ZArith List String Bool Lia DecimalString.
From Stdlib Require QArith_base.
Import ListNotations.

Open Scope Z_scope.
Open Scope string_scope.

(** ** JavaScript values *)

(** [String(n)] for an integer [n]. *)
Definition string_of_Z (z : Z) : string := NilZero.string_of_int (Z.to_int z).

(** A field that holds [null] or a string; [if (v)] is false on [null] and
    on the empty string. *)
Definition truthy (v : option string) : bool :=
  match v with
  | Some s => negb (s =? "")
  | None => false
  end.

(** A field that holds [null] or an integer; [if (v)] is false on [null]
    and on [0]. *)
Definition truthyZ (v : option Z) : bool :=
  match v with
  | Some n => negb (n =? 0)%Z
  | None => false
  end.

(** [a === b] for two fields that hold [null] or a string. *)
Definition strict_eq (a b : option string) : bool :=
  match a, b with
  | Some x, Some y => (x =? y)
  | None, None => true
  | _, _ => false
  end.

(** ** Data exchanged with the API *)

Record StandingRow := {
  position : Z;
  driver : string;
  team : string;
  compound : string
}.

Record RaceEvent := {
  RoundNumber : Z;
  EventName : string
}.

(** A parsed JSON object, as the script reads it: every property may be
    absent ([undefined]); [j_success] is only ever tested for truth. *)
Record Json := {
  j_events : option (list RaceEvent);
  j_laps : option (list Z);
  j_standings : option (list StandingRow);
  j_success : bool;
  j_probability : option QArith_base.Q;
  j_confidence : option string;
  j_error : option string
}.

Definition no_json : Json :=
  {| j_events := None; j_laps := None; j_standings := None; j_success := false;
     j_probability := None; j_confidence := None; j_error := None |}.

(** What [await response.json()] yields. [JNull] is a body that parses to
    [null], on which any property access throws. *)
Inductive Body :=
| JNull
| JObj (o : Json).

(** The outcome of [await fetch(..)] followed by [await response.json()]:
    [NetFail] is a rejected fetch or a body that is not JSON. *)
Inductive Reply :=
| NetFail
| Response (ok : bool) (body : Body).

Inductive Request :=
| GetEvents (year : string)
| GetLaps (year round : string)
| GetStandings (year round : string) (lap : Z)
| PostPredict (year round_num : option string) (lap_number : option Z)
              (chaser defender : option string).

(** ** The DOM elements the script touches *)

(** A [<select>]: its options as (value, text) pairs. *)
Record Select := {
  sel_options : list (string * string);
  sel_value : string;
  sel_disabled : bool
}.

(** [select.innerHTML = '<option value="">text</option>']: the only option
    becomes the selected one. *)
Definition select_html (text : string) (sel : Select) : Select :=
  {| sel_options := [("", text)]; sel_value := ""; sel_disabled := sel_disabled sel |}.

Definition select_append (o : string * string) (sel : Select) : Select :=
  {| sel_options := sel_options sel ++ [o];
     sel_value := sel_value sel;
     sel_disabled := sel_disabled sel |}.

Definition has_option (v : string) (sel : Select) : bool :=
  existsb (fun o => fst o =? v) (sel_options sel).

(** [select.value = v]: selects the option with that value, or none. *)
Definition select_assign (v : string) (sel : Select) : Select :=
  {| sel_options := sel_options sel;
     sel_value := if has_option v sel then v else "";
     sel_disabled := sel_disabled sel |}.

Definition select_disable (b : bool) (sel : Select) : Select :=
  {| sel_options := sel_options sel; sel_value := sel_value sel; sel_disabled := b |}.

(** The lap slider, an [<input type="range">] over integers. *)
Record Slider := {
  sl_min : Z;
  sl_max : Z;
  sl_value : Z;
  sl_disabled : bool
}.

(** The value sanitisation of a range input: below the minimum it becomes
    the minimum; above the maximum it becomes the maximum, unless the
    maximum is below the minimum. *)
Definition sanitize (lo hi v : Z) : Z :=
  if (v <? lo)%Z then lo
  else if ((lo <=? hi) && (hi <? v))%Z then hi
  else v.

Definition slider_set_min (m : Z) (sl : Slider) : Slider :=
  {| sl_min := m; sl_max := sl_max sl;
     sl_value := sanitize m (sl_max sl) (sl_value sl);
     sl_disabled := sl_disabled sl |}.

Definition slider_set_max (m : Z) (sl : Slider) : Slider :=
  {| sl_min := sl_min sl; sl_max := m;
     sl_value := sanitize (sl_min sl) m (sl_value sl);
     sl_disabled := sl_disabled sl |}.

Definition slider_assign (v : Z) (sl : Slider) : Slider :=
  {| sl_min := sl_min sl; sl_max := sl_max sl;
     sl_value := sanitize (sl_min sl) (sl_max sl) v;
     sl_disabled := sl_disabled sl |}.

Definition slider_disable (b : bool) (sl : Slider) : Slider :=
  {| sl_min := sl_min sl; sl_max := sl_max sl; sl_value := sl_value sl;
     sl_disabled := b |}.

(** The predict button: [btn_loading] is the CSS class [loading];
    [btn_label] is [None] while the button holds the spinner markup. *)
Record Button := {
  btn_disabled : bool;
  btn_loading : bool;
  btn_label : option string
}.

(** The prediction result block and its three text nodes. The probability
    is kept as the number received; its rendering is not modelled. *)
Record ResultView := {
  res_visible : bool;
  res_badge : string;
  res_badgeClass : string;
  res_probability : option QArith_base.Q;
  res_confidence : string
}.

(** What the standings panel shows. *)
Inductive PanelBody :=
| PanelBlank
| PanelPrompt                               (* "Select a race and lap to see standings" *)
| PanelNoData                               (* "No standings data available" *)
| PanelRows (rows : list (StandingRow * bool)).  (* a row and its [selected] class *)

Record Panel := {
  pan_body : PanelBody;
  pan_overlay : bool;        (* the CSS class [loading-overlay] *)
  pan_spinner : bool         (* a [.loading-spinner] child *)
}.

(** [panel.innerHTML = ..] replaces every child, the spinner included. *)
Definition panel_html (b : PanelBody) (p : Panel) : Panel :=
  {| pan_body := b; pan_overlay := pan_overlay p; pan_spinner := false |}.

(** The document. [middlePanel] says whether the page has an element of
    class [middle-panel]: the page template is not part of the script, and
    [showError] tests for the element. [errorMessages] are the elements of
    class [error-message], each with the serial number of its creation. *)
Record Dom := {
  eventSelect : Select;
  lapSlider : Slider;
  lapValue : string;
  currentLapDisplay : string;
  chaserSelect : Select;
  defenderSelect : Select;
  predictBtn : Button;
  predictionResult : ResultView;
  standingsList : Panel;
  chaserBox : bool;
  defenderBox : bool;
  errorMessages : list (nat * string);
  errorSerial : nat;
  middlePanel : bool
}.

(** Field updates of [Dom]. *)

Definition set_eventSelect (v : Select) (x : Dom) : Dom :=
  {| eventSelect := v; lapSlider := lapSlider x; lapValue := lapValue x;
     currentLapDisplay := currentLapDisplay x; chaserSelect := chaserSelect x;
     defenderSelect := defenderSelect x; predictBtn := predictBtn x;
     predictionResult := predictionResult x; standingsList := standingsList x;
     chaserBox := chaserBox x; defenderBox := defenderBox x;
     errorMessages := errorMessages x; errorSerial := errorSerial x;
     middlePanel := middlePanel x |}.

Definition set_lapSlider (v : Slider) (x : Dom) : Dom :=
  {| eventSelect := eventSelect x; lapSlider := v; lapValue := lapValue x;
     currentLapDisplay := currentLapDisplay x; chaserSelect := chaserSelect x;
     defenderSelect := defenderSelect x; predictBtn := predictBtn x;
     predictionResult := predictionResult x; standingsList := standingsList x;
     chaserBox := chaserBox x; defenderBox := defenderBox x;
     errorMessages := errorMessages x; errorSerial := errorSerial x;
     middlePanel := middlePanel x |}.

Definition set_lapValue (v : string) (x : Dom) : Dom :=
  {| eventSelect := eventSelect x; lapSlider := lapSlider x; lapValue := v;
     currentLapDisplay := currentLapDisplay x; chaserSelect := chaserSelect x;
     defenderSelect := defenderSelect x; predictBtn := predictBtn x;
     predictionResult := predictionResult x; standingsList := standingsList x;
     chaserBox := chaserBox x; defenderBox := defenderBox x;
     errorMessages := errorMessages x; errorSerial := errorSerial x;
     middlePanel := middlePanel x |}.

Definition set_currentLapDisplay (v : string) (x : Dom) : Dom :=
  {| eventSelect := eventSelect x; lapSlider := lapSlider x; lapValue := lapValue x;
     currentLapDisplay := v; chaserSelect := chaserSelect x;
     defenderSelect := defenderSelect x; predictBtn := predictBtn x;
     predictionResult := predictionResult x; standingsList := standingsList x;
     chaserBox := chaserBox x; defenderBox := defenderBox x;
     errorMessages := errorMessages x; errorSerial := errorSerial x;
     middlePanel := middlePanel x |}.

Definition set_chaserSelect (v : Select) (x : Dom) : Dom :=
  {| eventSelect := eventSelect x; lapSlider := lapSlider x; lapValue := lapValue x;
     currentLapDisplay := currentLapDisplay x; chaserSelect := v;
     defenderSelect := defenderSelect x; predictBtn := predictBtn x;
     predictionResult := predictionResult x; standingsList := standingsList x;
     chaserBox := chaserBox x; defenderBox := defenderBox x;
     errorMessages := errorMessages x; errorSerial := errorSerial x;
     middlePanel := middlePanel x |}.

Definition set_defenderSelect (v : Select) (x : Dom) : Dom :=
  {| eventSelect := eventSelect x; lapSlider := lapSlider x; lapValue := lapValue x;
     currentLapDisplay := currentLapDisplay x; chaserSelect := chaserSelect x;
     defenderSelect := v; predictBtn := predictBtn x;
     predictionResult := predictionResult x; standingsList := standingsList x;
     chaserBox := chaserBox x; defenderBox := defenderBox x;
     errorMessages := errorMessages x; errorSerial := errorSerial x;
     middlePanel := middlePanel x |}.

Definition set_predictBtn (v : Button) (x : Dom) : Dom :=
  {| eventSelect := eventSelect x; lapSlider := lapSlider x; lapValue := lapValue x;
     currentLapDisplay := currentLapDisplay x; chaserSelect := chaserSelect x;
     defenderSelect := defenderSelect x; predictBtn := v;
     predictionResult := predictionResult x; standingsList := standingsList x;
     chaserBox := chaserBox x; defenderBox := defenderBox x;
     errorMessages := errorMessages x; errorSerial := errorSerial x;
     middlePanel := middlePanel x |}.

Definition set_predictionResult (v : ResultView) (x : Dom) : Dom :=
  {| eventSelect := eventSelect x; lapSlider := lapSlider x; lapValue := lapValue x;
     currentLapDisplay := currentLapDisplay x; chaserSelect := chaserSelect x;
     defenderSelect := defenderSelect x; predictBtn := predictBtn x;
     predictionResult := v; standingsList := standingsList x; chaserBox := chaserBox x;
     defenderBox := defenderBox x; errorMessages := errorMessages x;
     errorSerial := errorSerial x; middlePanel := middlePanel x |}.

Definition set_standingsList (v : Panel) (x : Dom) : Dom :=
  {| eventSelect := eventSelect x; lapSlider := lapSlider x; lapValue := lapValue x;
     currentLapDisplay := currentLapDisplay x; chaserSelect := chaserSelect x;
     defenderSelect := defenderSelect x; predictBtn := predictBtn x;
     predictionResult := predictionResult x; standingsList := v;
     chaserBox := chaserBox x; defenderBox := defenderBox x;
     errorMessages := errorMessages x; errorSerial := errorSerial x;
     middlePanel := middlePanel x |}.

Definition set_chaserBox (v : bool) (x : Dom) : Dom :=
  {| eventSelect := eventSelect x; lapSlider := lapSlider x; lapValue := lapValue x;
     currentLapDisplay := currentLapDisplay x; chaserSelect := chaserSelect x;
     defenderSelect := defenderSelect x; predictBtn := predictBtn x;
     predictionResult := predictionResult x; standingsList := standingsList x;
     chaserBox := v; defenderBox := defenderBox x; errorMessages := errorMessages x;
     errorSerial := errorSerial x; middlePanel := middlePanel x |}.

Definition set_defenderBox (v : bool) (x : Dom) : Dom :=
  {| eventSelect := eventSelect x; lapSlider := lapSlider x; lapValue := lapValue x;
     currentLapDisplay := currentLapDisplay x; chaserSelect := chaserSelect x;
     defenderSelect := defenderSelect x; predictBtn := predictBtn x;
     predictionResult := predictionResult x; standingsList := standingsList x;
     chaserBox := chaserBox x; defenderBox := v; errorMessages := errorMessages x;
     errorSerial := errorSerial x; middlePanel := middlePanel x |}.

Definition set_errorMessages (v : list (nat * string)) (x : Dom) : Dom :=
  {| eventSelect := eventSelect x; lapSlider := lapSlider x; lapValue := lapValue x;
     currentLapDisplay := currentLapDisplay x; chaserSelect := chaserSelect x;
     defenderSelect := defenderSelect x; predictBtn := predictBtn x;
     predictionResult := predictionResult x; standingsList := standingsList x;
     chaserBox := chaserBox x; defenderBox := defenderBox x; errorMessages := v;
     errorSerial := errorSerial x; middlePanel := middlePanel x |}.

Definition set_errorSerial (v : nat) (x : Dom) : Dom :=
  {| eventSelect := eventSelect x; lapSlider := lapSlider x; lapValue := lapValue x;
     currentLapDisplay := currentLapDisplay x; chaserSelect := chaserSelect x;
     defenderSelect := defenderSelect x; predictBtn := predictBtn x;
     predictionResult := predictionResult x; standingsList := standingsList x;
     chaserBox := chaserBox x; defenderBox := defenderBox x;
     errorMessages := errorMessages x; errorSerial := v;
     middlePanel := middlePanel x |}.

(** ** The application object

    The six fields of [this], the document, the requests issued so far (each
    with a flag: has its reply arrived) and the pending five-second timers
    of [showError]. The index of a request in [requests] identifies it. *)
Record App := {
  currentYear : option string;
  currentRound : option string;
  currentLap : option Z;
  chaserDriver : option string;
  defenderDriver : option string;
  standings : list StandingRow;
  dom : Dom;
  requests : list (Request * bool);
  timers : list nat
}.

Definition set_currentYear (v : option string) (x : App) : App :=
  {| currentYear := v; currentRound := currentRound x; currentLap := currentLap x;
     chaserDriver := chaserDriver x; defenderDriver := defenderDriver x;
     standings := standings x; dom := dom x; requests := requests x;
     timers := timers x |}.

Definition set_currentRound (v : option string) (x : App) : App :=
  {| currentYear := currentYear x; currentRound := v; currentLap := currentLap x;
     chaserDriver := chaserDriver x; defenderDriver := defenderDriver x;
     standings := standings x; dom := dom x; requests := requests x;
     timers := timers x |}.

Definition set_currentLap (v : option Z) (x : App) : App :=
  {| currentYear := currentYear x; currentRound := currentRound x; currentLap := v;
     chaserDriver := chaserDriver x; defenderDriver := defenderDriver x;
     standings := standings x; dom := dom x; requests := requests x;
     timers := timers x |}.

Definition set_chaserDriver (v : option string) (x : App) : App :=
  {| currentYear := currentYear x; currentRound := currentRound x;
     currentLap := currentLap x; chaserDriver := v; defenderDriver := defenderDriver x;
     standings := standings x; dom := dom x; requests := requests x;
     timers := timers x |}.

Definition set_defenderDriver (v : option string) (x : App) : App :=
  {| currentYear := currentYear x; currentRound := currentRound x;
     currentLap := currentLap x; chaserDriver := chaserDriver x; defenderDriver := v;
     standings := standings x; dom := dom x; requests := requests x;
     timers := timers x |}.

Definition set_standings (v : list StandingRow) (x : App) : App :=
  {| currentYear := currentYear x; currentRound := currentRound x;
     currentLap := currentLap x; chaserDriver := chaserDriver x;
     defenderDriver := defenderDriver x; standings := v; dom := dom x;
     requests := requests x; timers := timers x |}.

Definition set_dom (v : Dom) (x : App) : App :=
  {| currentYear := currentYear x; currentRound := currentRound x;
     currentLap := currentLap x; chaserDriver := chaserDriver x;
     defenderDriver := defenderDriver x; standings := standings x; dom := v;
     requests := requests x; timers := timers x |}.

Definition set_requests (v : list (Request * bool)) (x : App) : App :=
  {| currentYear := currentYear x; currentRound := currentRound x;
     currentLap := currentLap x; chaserDriver := chaserDriver x;
     defenderDriver := defenderDriver x; standings := standings x; dom := dom x;
     requests := v; timers := timers x |}.

Definition set_timers (v : list nat) (x : App) : App :=
  {| currentYear := currentYear x; currentRound := currentRound x;
     currentLap := currentLap x; chaserDriver := chaserDriver x;
     defenderDriver := defenderDriver x; standings := standings x; dom := dom x;
     requests := requests x; timers := v |}.

(** ** The monad of methods

    A method reads and writes the application and either returns or throws.
    State written before a throw stays written, as in JavaScript. *)
Definition M (A : Type) : Type := App -> option A * App.

Definition ret {A} (a : A) : M A := fun s => (Some a, s).

Definition bind {A B} (m : M A) (k : A -> M B) : M B :=
  fun s =>
    match m s with
    | (Some a, s') => k a s'
    | (None, s') => (None, s')
    end.

Definition throw {A} : M A := fun s => (None, s).

(** [try { body } catch (error) { handler }]. *)
Definition try_catch (body handler : M unit) : M unit :=
  fun s =>
    match body s with
    | (Some a, s') => (Some a, s')
    | (None, s') => handler s'
    end.

Definition get : M App := fun s => (Some s, s).

Definition modify (f : App -> App) : M unit := fun s => (Some tt, f s).

Definition on_dom (f : Dom -> Dom) : M unit :=
  modify (fun s => set_dom (f (dom s)) s).

(** The state a method leaves, and whether it returned. *)
Definition exec {A} (m : M A) (s : App) : App := snd (m s).

Definition returns {A} (m : M A) (s : App) : bool :=
  match fst (m s) with Some _ => true | None => false end.

Declare Scope method_scope.
Delimit Scope method_scope with method.
Bind Scope method_scope with M.

Notation "x <- m ;; k" := (bind m (fun x => k))
  (at level 61, m at next level, right associativity) : method_scope.
Notation "m ;; k" := (bind m (fun _ => k))
  (at level 61, right associativity) : method_scope.

Open Scope method_scope.

Definition when (b : bool) (m : M unit) : M unit := if b then m else ret tt.

(** [await fetch(..)] then [await response.json()], once the reply is in. *)
Definition await (r : Reply) : M (bool * Body) :=
  match r with
  | NetFail => throw
  | Response ok body => ret (ok, body)
  end.

(** Reading a property of [data]: a [TypeError] when [data] is [null]. *)
Definition obj (data : Body) : M Json :=
  match data with
  | JNull => throw
  | JObj o => ret o
  end.

(** [fetch(..)]: the request joins the list, its reply still to come. *)
Definition fetch (r : Request) : M unit :=
  modify (fun s => set_requests (requests s ++ [(r, false)]) s).

(** ** The methods of [F1UndercutApp] *)

(** [showLoadingInSelect('eventSelect')], its only use. *)
Definition showLoadingInSelect : M unit :=
  on_dom (fun d =>
    set_eventSelect (select_disable true (select_html "Loading..." (eventSelect d))) d).

(** [showLoadingInPanel('standingsList')], its only use. *)
Definition showLoadingInPanel : M unit :=
  on_dom (fun d =>
    set_standingsList
      {| pan_body := PanelBlank; pan_overlay := true; pan_spinner := true |} d).

(** [hideLoadingInPanel('standingsList')], its only use. *)
Definition hideLoadingInPanel : M unit :=
  on_dom (fun d =>
    set_standingsList
      {| pan_body := pan_body (standingsList d);
         pan_overlay := false; pan_spinner := false |} d).

Definition showError (message : string) : M unit :=
  s <- get ;;
  let n := errorSerial (dom s) in
  on_dom (set_errorMessages []) ;;
  on_dom (set_errorSerial (S n)) ;;
  when (middlePanel (dom s)) (on_dom (set_errorMessages [(n, message)])) ;;
  modify (fun s => set_timers (timers s ++ [n]) s).

Definition clearSelections : M unit :=
  modify (set_currentLap None) ;;
  modify (set_chaserDriver None) ;;
  modify (set_defenderDriver None) ;;
  on_dom (fun d => set_lapSlider (slider_assign 1 (lapSlider d)) d) ;;
  on_dom (fun d => set_lapSlider (slider_disable true (lapSlider d)) d) ;;
  on_dom (set_lapValue "1") ;;
  on_dom (set_currentLapDisplay "1") ;;
  on_dom (fun d => set_chaserSelect (select_assign "" (chaserSelect d)) d) ;;
  on_dom (fun d => set_defenderSelect (select_assign "" (defenderSelect d)) d) ;;
  on_dom (fun d => set_chaserSelect (select_disable true (chaserSelect d)) d) ;;
  on_dom (fun d => set_defenderSelect (select_disable true (defenderSelect d)) d) ;;
  on_dom (fun d =>
    set_predictionResult
      {| res_visible := false;
         res_badge := res_badge (predictionResult d);
         res_badgeClass := res_badgeClass (predictionResult d);
         res_probability := res_probability (predictionResult d);
         res_confidence := res_confidence (predictionResult d) |} d) ;;
  on_dom (fun d => set_standingsList (panel_html PanelPrompt (standingsList d)) d).

Definition showLoading : M unit :=
  on_dom (set_predictBtn
    {| btn_disabled := true; btn_loading := true; btn_label := None |}).

Definition hideLoading : M unit :=
  on_dom (set_predictBtn
    {| btn_disabled := false; btn_loading := false;
       btn_label := Some "Predict Undercut" |}).

Definition is_selected (s : App) (r : StandingRow) : bool :=
  strict_eq (Some (driver r)) (chaserDriver s)
  || strict_eq (Some (driver r)) (defenderDriver s).

Definition updateStandingsList : M unit :=
  s <- get ;;
  match standings s with
  | [] => on_dom (fun d => set_standingsList (panel_html PanelNoData (standingsList d)) d)
  | rows =>
      on_dom (fun d =>
        set_standingsList
          (panel_html (PanelRows (map (fun r => (r, is_selected s r)) rows))
                      (standingsList d)) d)
  end.

Definition driver_option (r : StandingRow) : string * string :=
  (driver r, driver r ++ " (P" ++ string_of_Z (position r) ++ ")").

Definition updateDriverSelects : M unit :=
  on_dom (fun d => set_chaserSelect (select_html "Select Chaser" (chaserSelect d)) d) ;;
  on_dom (fun d => set_defenderSelect (select_html "Select Defender" (defenderSelect d)) d) ;;
  s <- get ;;
  match standings s with
  | [] =>
      on_dom (fun d => set_chaserSelect (select_disable true (chaserSelect d)) d) ;;
      on_dom (fun d => set_defenderSelect (select_disable true (defenderSelect d)) d)
  | rows =>
      on_dom (fun d =>
        set_chaserSelect
          (fold_left (fun sel r => select_append (driver_option r) sel) rows
                     (chaserSelect d)) d) ;;
      on_dom (fun d =>
        set_defenderSelect
          (fold_left (fun sel r => select_append (driver_option r) sel) rows
                     (defenderSelect d)) d) ;;
      on_dom (fun d => set_chaserSelect (select_disable false (chaserSelect d)) d) ;;
      on_dom (fun d => set_defenderSelect (select_disable false (defenderSelect d)) d) ;;
      match chaserDriver s with
      | Some c =>
          when (truthy (Some c))
            (on_dom (fun d => set_chaserSelect (select_assign c (chaserSelect d)) d))
      | None => ret tt
      end ;;
      match defenderDriver s with
      | Some c =>
          when (truthy (Some c))
            (on_dom (fun d => set_defenderSelect (select_assign c (defenderSelect d)) d))
      | None => ret tt
      end
  end.

Definition is_not_null (v : option string) : bool :=
  match v with Some _ => true | None => false end.

Definition updateSelectedDrivers : M unit :=
  updateStandingsList ;;
  s <- get ;;
  on_dom (fun d =>
    set_predictBtn
      {| btn_disabled := negb (truthy (chaserDriver s) && truthy (defenderDriver s));
         btn_loading := btn_loading (predictBtn d);
         btn_label := btn_label (predictBtn d) |} d) ;;
  on_dom (set_chaserBox (is_not_null (chaserDriver s))) ;;
  on_dom (set_defenderBox (is_not_null (defenderDriver s))).

Definition selectDriver (driver : string) : M unit :=
  s <- get ;;
  (if negb (truthy (chaserDriver s)) then
     modify (set_chaserDriver (Some driver)) ;;
     on_dom (fun d => set_chaserSelect (select_assign driver (chaserSelect d)) d)
   else if negb (truthy (defenderDriver s)) then
     modify (set_defenderDriver (Some driver)) ;;
     on_dom (fun d => set_defenderSelect (select_assign driver (defenderSelect d)) d)
   else
     modify (set_defenderDriver (Some driver)) ;;
     on_dom (fun d => set_defenderSelect (select_assign driver (defenderSelect d)) d)) ;;
  updateSelectedDrivers.

Definition validateSelection : M bool :=
  s <- get ;;
  if negb (truthy (currentYear s)) || negb (truthy (currentRound s))
     || negb (truthyZ (currentLap s)) then
    showError "Please select year, race, and lap" ;; ret false
  else if negb (truthy (chaserDriver s)) || negb (truthy (defenderDriver s)) then
    showError "Please select both chaser and defender drivers" ;; ret false
  else if strict_eq (chaserDriver s) (defenderDriver s) then
    showError "Chaser and defender must be different drivers" ;; ret false
  else ret true.

(** [predictUndercut] up to its [await fetch('/api/predict', ..)]. *)
Definition predictUndercut : M unit :=
  valid <- validateSelection ;;
  if negb valid then ret tt
  else
    showLoading ;;
    s <- get ;;
    fetch (PostPredict (currentYear s) (currentRound s) (currentLap s)
                       (chaserDriver s) (defenderDriver s)).

(** The template literal [`${data.confidence} Confidence`]. *)
Definition confidence_text (c : option string) : string :=
  match c with
  | Some c => c ++ " Confidence"
  | None => "undefined Confidence"
  end.

Definition displayPrediction (data : Body) : M unit :=
  on_dom (fun d =>
    set_predictionResult
      {| res_visible := true;
         res_badge := res_badge (predictionResult d);
         res_badgeClass := res_badgeClass (predictionResult d);
         res_probability := res_probability (predictionResult d);
         res_confidence := res_confidence (predictionResult d) |} d) ;;
  o <- obj data ;;
  on_dom (set_predictionResult
    {| res_visible := true;
       res_badge := if j_success o then "SUCCESS" else "FAIL";
       res_badgeClass := if j_success o then "success-badge success"
                         else "success-badge fail";
       res_probability := j_probability o;
       res_confidence := confidence_text (j_confidence o) |}).

(** [v || fallback] on a string property that may be absent. *)
Definition or_else (v : option string) (fallback : string) : string :=
  match v with
  | Some e => if truthy (Some e) then e else fallback
  | None => fallback
  end.

(** [predictUndercut] from the arrival of the reply on. *)
Definition predictUndercut_resume (r : Reply) : M unit :=
  try_catch
    (response <- await r ;;
     hideLoading ;;
     if fst response then displayPrediction (snd response)
     else
       o <- obj (snd response) ;;
       showError (or_else (j_error o) "Prediction failed"))
    (hideLoading ;;
     showError "Failed to get prediction").

(** [loadEvents] up to its [await fetch(`/api/events/${year}`)]. *)
Definition loadEvents (year : string) : M unit :=
  showLoadingInSelect ;;
  fetch (GetEvents year).

Definition event_option (e : RaceEvent) : string * string :=
  (string_of_Z (RoundNumber e),
   string_of_Z (RoundNumber e) ++ ". " ++ EventName e).

Definition loadEvents_resume (r : Reply) : M unit :=
  try_catch
    (response <- await r ;;
     on_dom (fun d => set_eventSelect (select_html "Select Race" (eventSelect d)) d) ;;
     o <- obj (snd response) ;;
     match j_events o with
     | Some (e :: es) =>
         on_dom (fun d =>
           set_eventSelect
             (fold_left (fun sel e => select_append (event_option e) sel) (e :: es)
                        (eventSelect d)) d) ;;
         on_dom (fun d => set_eventSelect (select_disable false (eventSelect d)) d)
     | _ => showError "No races found for this year"
     end ;;
     clearSelections)
    (showError "Failed to load races").

(** [loadStandings] up to its [await fetch(..)]. *)
Definition loadStandings (year round : string) (lap : Z) : M unit :=
  showLoadingInPanel ;;
  fetch (GetStandings year round lap).

Definition or_empty (v : option (list StandingRow)) : list StandingRow :=
  match v with
  | Some l => l
  | None => []
  end.

Definition loadStandings_resume (r : Reply) : M unit :=
  try_catch
    (response <- await r ;;
     hideLoadingInPanel ;;
     o <- obj (snd response) ;;
     modify (set_standings (or_empty (j_standings o))) ;;
     updateStandingsList ;;
     updateDriverSelects)
    (hideLoadingInPanel ;;
     showError "Failed to load driver standings").

(** [loadLaps] up to its [await fetch(..)]. *)
Definition loadLaps (year round : string) : M unit :=
  showLoadingInPanel ;;
  fetch (GetLaps year round).

(** [Math.min(...l)] and [Math.max(...l)] on a list with first element [x]. *)
Definition Math_min (x : Z) (xs : list Z) : Z := fold_left Z.min xs x.
Definition Math_max (x : Z) (xs : list Z) : Z := fold_left Z.max xs x.

(** The rest of [loadLaps]; [year] and [round] are the arguments the call
    was made with. The call of [loadStandings] at its end is not awaited:
    it runs up to its own [await]. *)
Definition loadLaps_resume (year round : string) (r : Reply) : M unit :=
  try_catch
    (response <- await r ;;
     hideLoadingInPanel ;;
     o <- obj (snd response) ;;
     match j_laps o with
     | Some (l :: ls) =>
         match filter (fun lap => 1 <=? lap)%Z (l :: ls) with
         | v :: vs =>
             let minLap := Z.max 1 (Math_min v vs) in
             let maxLap := Math_max v vs in
             on_dom (fun d => set_lapSlider (slider_set_min minLap (lapSlider d)) d) ;;
             on_dom (fun d => set_lapSlider (slider_set_max maxLap (lapSlider d)) d) ;;
             on_dom (fun d => set_lapSlider (slider_assign minLap (lapSlider d)) d) ;;
             on_dom (fun d => set_lapSlider (slider_disable false (lapSlider d)) d) ;;
             s <- get ;;
             let lap := sl_value (lapSlider (dom s)) in
             modify (set_currentLap (Some lap)) ;;
             on_dom (set_lapValue (string_of_Z lap)) ;;
             on_dom (set_currentLapDisplay (string_of_Z lap)) ;;
             loadStandings year round lap
         | [] => showError "No valid lap data available (all laps are below 1)"
         end
     | _ => showError "No pit stop data available for this race"
     end)
    (hideLoadingInPanel ;;
     showError "Failed to load lap data").

(** ** The listeners of [bindEvents] *)

Definition str (v : option string) : string :=
  match v with Some s => s | None => "" end.

Definition on_yearSelect_change (value : string) : M unit :=
  modify (set_currentYear (Some value)) ;;
  s <- get ;;
  when (truthy (currentYear s)) (loadEvents (str (currentYear s))).

Definition on_eventSelect_change (value : string) : M unit :=
  modify (set_currentRound (Some value)) ;;
  s <- get ;;
  when (truthy (currentYear s) && truthy (currentRound s))
    (loadLaps (str (currentYear s)) (str (currentRound s))).

(** [value] is [parseInt(e.target.value)]: a range input always holds a
    number, here an integer. *)
Definition on_lapSlider_input (value : Z) : M unit :=
  modify (set_currentLap (Some value)) ;;
  on_dom (set_lapValue (string_of_Z value)) ;;
  on_dom (set_currentLapDisplay (string_of_Z value)) ;;
  s <- get ;;
  when (truthy (currentYear s) && truthy (currentRound s) && truthyZ (currentLap s))
    (loadStandings (str (currentYear s)) (str (currentRound s)) value).

Definition on_chaserSelect_change (value : string) : M unit :=
  modify (set_chaserDriver (Some value)) ;;
  updateSelectedDrivers.

Definition on_defenderSelect_change (value : string) : M unit :=
  modify (set_defenderDriver (Some value)) ;;
  updateSelectedDrivers.

Definition on_predictBtn_click : M unit := predictUndercut.

(** The five-second timer of [showError] number [n] fires: its element is
    removed if it is still in the document. *)
Definition on_error_timeout (n : nat) : M unit :=
  on_dom (fun d =>
    set_errorMessages (filter (fun e => negb (Nat.eqb (fst e) n)) (errorMessages d)) d).

(** ** The browser: events and steps *)

Inductive event :=
| YearChange (value : string)        (* the user picks a year *)
| EventChange (value : string)       (* the user picks a race *)
| LapInput (value : Z)               (* the user moves the lap slider *)
| ChaserChange (value : string)      (* the user picks a chaser in its list *)
| DefenderChange (value : string)    (* the user picks a defender in its list *)
| StandingClick (driver : string)    (* the user clicks a standings row *)
| PredictClick                       (* the user clicks the predict button *)
| Arrive (i : nat) (r : Reply)       (* the reply to request [i] arrives *)
| ErrorTimeout (n : nat).            (* the timer of error [n] fires *)

(** The continuation a request left behind at its [await]. *)
Definition resume (q : Request) (r : Reply) : M unit :=
  match q with
  | GetEvents _ => loadEvents_resume r
  | GetLaps year round => loadLaps_resume year round r
  | GetStandings _ _ _ => loadStandings_resume r
  | PostPredict _ _ _ _ _ => predictUndercut_resume r
  end.

Fixpoint settle (i : nat) (l : list (Request * bool)) : list (Request * bool) :=
  match l, i with
  | [], _ => []
  | (q, _) :: l', O => (q, true) :: l'
  | x :: l', S i' => x :: settle i' l'
  end.

(** What the listener of an event does; the control the user acted on
    already holds the new value. A reply is delivered once, to the request
    it answers. *)
Definition handler (e : event) : M unit :=
  match e with
  | YearChange v => on_yearSelect_change v
  | EventChange v =>
      on_dom (fun d => set_eventSelect (select_assign v (eventSelect d)) d) ;;
      on_eventSelect_change v
  | LapInput v =>
      on_dom (fun d => set_lapSlider (slider_assign v (lapSlider d)) d) ;;
      on_lapSlider_input v
  | ChaserChange v =>
      on_dom (fun d => set_chaserSelect (select_assign v (chaserSelect d)) d) ;;
      on_chaserSelect_change v
  | DefenderChange v =>
      on_dom (fun d => set_defenderSelect (select_assign v (defenderSelect d)) d) ;;
      on_defenderSelect_change v
  | StandingClick d => selectDriver d
  | PredictClick => on_predictBtn_click
  | Arrive i r =>
      s <- get ;;
      match nth_error (requests s) i with
      | Some (q, false) =>
          modify (fun s => set_requests (settle i (requests s)) s) ;;
          resume q r
      | _ => ret tt
      end
  | ErrorTimeout n =>
      s <- get ;;
      when (existsb (Nat.eqb n) (timers s))
        (modify (fun s => set_timers (filter (fun m => negb (Nat.eqb m n)) (timers s)) s) ;;
         on_error_timeout n)
  end.

Definition step (s : App) (e : event) : App := exec (handler e) s.

Definition run (s : App) (trace : list event) : App := fold_left step trace s.

(** [new F1UndercutApp()] on a freshly loaded page. *)
Definition new_app (page : Dom) : App :=
  {| currentYear := None; currentRound := None; currentLap := None;
     chaserDriver := None; defenderDriver := None; standings := [];
     dom := page; requests := []; timers := [] |}.

(** Can the browser deliver this event in this state: a disabled control
    emits nothing, a list offers only its options, a slider only its range,
    the panel only the rows it shows; a reply answers a request still
    waiting for one. *)
Definition enabled (s : App) (e : event) : bool :=
  match e with
  | YearChange _ => true
  | EventChange v =>
      negb (sel_disabled (eventSelect (dom s))) && has_option v (eventSelect (dom s))
  | LapInput v =>
      negb (sl_disabled (lapSlider (dom s)))
      && (sl_min (lapSlider (dom s)) <=? v)%Z && (v <=? sl_max (lapSlider (dom s)))%Z
  | ChaserChange v =>
      negb (sel_disabled (chaserSelect (dom s))) && has_option v (chaserSelect (dom s))
  | DefenderChange v =>
      negb (sel_disabled (defenderSelect (dom s))) && has_option v (defenderSelect (dom s))
  | StandingClick d =>
      match pan_body (standingsList (dom s)) with
      | PanelRows rows => existsb (fun r => driver (fst r) =? d) rows
      | _ => false
      end
  | PredictClick => negb (btn_disabled (predictBtn (dom s)))
  | Arrive i _ =>
      match nth_error (requests s) i with
      | Some (_, false) => true
      | _ => false
      end
  | ErrorTimeout n => existsb (Nat.eqb n) (timers s)
  end.

(** A trace the browser can produce from [s]: each event is enabled in the
    state the previous ones lead to. *)
Fixpoint feasible (s : App) (trace : list event) : bool :=
  match trace with
  | [] => true
  | e :: trace' => enabled s e && feasible (step s e) trace'
  end.

(** A page as the script may find it: nothing chosen yet, the pick-lists
    holding only their placeholder, every control but the year list
    disabled, no error shown. *)
Definition blank_select (text : string) : Select :=
  {| sel_options := [("", text)]; sel_value := ""; sel_disabled := true |}.

Definition start_page : Dom :=
  {| eventSelect := blank_select "Select Race";
     lapSlider := {| sl_min := 1; sl_max := 1; sl_value := 1; sl_disabled := true |};
     lapValue := "1";
     currentLapDisplay := "1";
     chaserSelect := blank_select "Select Chaser";
     defenderSelect := blank_select "Select Defender";
     predictBtn := {| btn_disabled := true; btn_loading := false;
                      btn_label := Some "Predict Undercut" |};
     predictionResult := {| res_visible := false; res_badge := ""; res_badgeClass := "";
                            res_probability := None; res_confidence := "" |};
     standingsList := {| pan_body := PanelPrompt; pan_overlay := false;
                         pan_spinner := false |};
     chaserBox := false;
     defenderBox := false;
     errorMessages := [];
     errorSerial := 0;
     middlePanel := true |}.

(** Sample data. *)
Definition row (p : Z) (d : string) : StandingRow :=
  {| position := p; driver := d; team := "Team"; compound := "SOFT" |}.

Definition events_obj (l : list RaceEvent) : Json :=
  {| j_events := Some l; j_laps := None; j_standings := None; j_success := false;
     j_probability := None; j_confidence := None; j_error := None |}.

Definition events_json (l : list RaceEvent) : Body := JObj (events_obj l).

Definition laps_obj (l : list Z) : Json :=
  {| j_events := None; j_laps := Some l; j_standings := None; j_success := false;
     j_probability := None; j_confidence := None; j_error := None |}.

Definition laps_json (l : list Z) : Body := JObj (laps_obj l).

Definition standings_obj (l : list StandingRow) : Json :=
  {| j_events := None; j_laps := None; j_standings := Some l; j_success := false;
     j_probability := None; j_confidence := None; j_error := None |}.

Definition standings_json (l : list StandingRow) : Body := JObj (standings_obj l).

Definition error_obj (e : option string) : Json :=
  {| j_events := None; j_laps := None; j_standings := None; j_success := false;
     j_probability := None; j_confidence := None; j_error := e |}.

Definition error_json (e : option string) : Body := JObj (error_obj e).

Definition season : list RaceEvent :=
  [ {| RoundNumber := 5; EventName := "Miami Grand Prix" |};
    {| RoundNumber := 6; EventName := "Monaco Grand Prix" |} ].

Definition grid : list StandingRow := [row 1 "VER"; row 2 "HAM"; row 3 "LEC"].

(** * What the properties speak of

    Predicates on states, and the sessions the examples run. *)

(** *** Driver assignment *)

(** Chaser and defender are both non-empty. *)
Definition both_set (s : App) : bool :=
  truthy (chaserDriver s) && truthy (defenderDriver s).

(** An event that assigns a driver: a change of either pick-list, or a
    click on a standings row. *)
Definition assigns_driver (e : event) : bool :=
  match e with
  | ChaserChange _ | DefenderChange _ | StandingClick _ => true
  | _ => false
  end.

(** The panel shows the standings, row for row, with the selected marked. *)
Definition panel_shows_standings (s : App) : Prop :=
  pan_body (standingsList (dom s))
  = PanelRows (map (fun r => (r, is_selected s r)) (standings s)).

(** Standings [l] on display and no driver chosen. *)
Definition nothing_selected (l : list StandingRow) : App :=
  exec updateStandingsList (set_standings l (new_app start_page)).

(** VER is the chaser, no defender yet. *)
Definition same_driver_twice : App :=
  set_chaserDriver (Some "VER") (nothing_selected grid).

(** *** The prediction request *)

(** The gate as the specification words it: three checks in order, the
    first that fails gives the message. *)
Definition gate_verdict (s : App) : option string :=
  if negb (truthy (currentYear s) && truthy (currentRound s) && truthyZ (currentLap s))
  then Some "Please select year, race, and lap"
  else if negb (truthy (chaserDriver s) && truthy (defenderDriver s))
  then Some "Please select both chaser and defender drivers"
  else if strict_eq (chaserDriver s) (defenderDriver s)
  then Some "Chaser and defender must be different drivers"
  else None.

(** The request [predictUndercut] sends from state [s]. *)
Definition predict_request (s : App) : Request :=
  PostPredict (currentYear s) (currentRound s) (currentLap s)
              (chaserDriver s) (defenderDriver s).

(** The selection [{year: 2023, round: 5, lap: 12, chaser: "VER",
    defender: "VER"}]. *)
Definition verstappen_twice : App :=
  set_currentYear (Some "2023")
    (set_currentRound (Some "5")
       (set_currentLap (Some 12)
          (set_chaserDriver (Some "VER")
             (set_defenderDriver (Some "VER") (nothing_selected grid))))).

(** The predict button is busy: disabled, with the [loading] class or the
    spinner in place of its label. *)
Definition busy (b : Button) : bool :=
  btn_loading b || match btn_label b with None => true | Some _ => false end.

(** VER chasing HAM on lap 12, and the prediction asked for. *)
Definition awaiting_prediction : App :=
  step (set_defenderDriver (Some "HAM") verstappen_twice) PredictClick.

(** *** Loading the lap set *)

(** The laps the script keeps: those of at least 1. *)
Definition valid_laps (laps : list Z) : list Z := filter (fun lap => 1 <=? lap)%Z laps.

(** [lo] is the least and [hi] the greatest element of [l]. *)
Definition least (lo : Z) (l : list Z) : Prop := In lo l /\ Forall (fun x => lo <= x) l.
Definition greatest (hi : Z) (l : list Z) : Prop := In hi l /\ Forall (fun x => x <= hi) l.

(** A request for the laps of round 5 of 2023, waiting for its reply. *)
Definition awaiting_laps : App :=
  run (new_app start_page)
      [YearChange "2023"; Arrive 0 (Response true (events_json season)); EventChange "5"].

(** The laps of a reply: [data.laps], or none when the property is absent. *)
Definition raw_laps (o : Json) : list Z :=
  match j_laps o with
  | Some l => l
  | None => []
  end.

(** Round 5 of 2023 has been loaded, with laps 1 to 3; the user then picks
    round 6, whose lap set is still to come. *)
Definition second_race_trace : list event :=
  [YearChange "2023"; Arrive 0 (Response true (events_json season));
   EventChange "5"; Arrive 1 (Response true (laps_json [1; 2; 3]));
   Arrive 2 (Response true (standings_json grid)); EventChange "6"].

(** The state that trace leads to. *)
Definition awaiting_second_race : App := run (new_app start_page) second_race_trace.

(** *** Failure paths of the three loaders *)

(** The standings panel shows its loading state. *)
Definition panel_loading (p : Panel) : bool := pan_overlay p || pan_spinner p.

(** A reply that is no JSON object: the fetch failed, or the body is not
    JSON or parses to [null]. *)
Definition not_an_object (r : Reply) : bool :=
  match r with
  | Response _ (JObj _) => false
  | _ => true
  end.

(** The race list shows its loading placeholder. *)
Definition select_loading (sel : Select) : bool :=
  existsb (fun o => snd o =? "Loading...") (sel_options sel).

(** *** Stale standings replies *)

(** The order on lap 3: HAM has passed VER. *)
Definition grid_lap3 : list StandingRow := [row 1 "HAM"; row 2 "VER"; row 3 "LEC"].

(** Round 5 of 2023 is loaded and opens on lap 1, whose standings are
    asked for (request 2); the user moves to lap 3 (request 3) and the
    reply for lap 3 arrives first. *)
Definition overtaken_trace : list event :=
  [YearChange "2023"; Arrive 0 (Response true (events_json season));
   EventChange "5"; Arrive 1 (Response true (laps_json [1; 2; 3]));
   LapInput 3; Arrive 3 (Response true (standings_json grid_lap3))].

(** Lap 3 is selected and shown; the reply for lap 1 is still to come. *)
Definition overtaken : App := run (new_app start_page) overtaken_trace.

(** *** What an upstream change clears *)

(** The stored standings list is empty. *)
Definition no_standings (s : App) : bool :=
  match standings s with [] => true | _ => false end.

(** No prediction result is on display. *)
Definition result_hidden (s : App) : bool :=
  negb (res_visible (predictionResult (dom s))).

(** The three clauses of the claim: what is unset after a change of the
    year, of the race, of the lap. *)
Definition cleared_below_year (s : App) : bool :=
  negb (truthy (currentRound s)) && negb (truthyZ (currentLap s))
  && negb (truthy (chaserDriver s)) && negb (truthy (defenderDriver s))
  && no_standings s && result_hidden s.

Definition cleared_below_race (s : App) : bool :=
  negb (truthyZ (currentLap s))
  && negb (truthy (chaserDriver s)) && negb (truthy (defenderDriver s))
  && no_standings s && result_hidden s.

Definition cleared_below_lap (s : App) : bool :=
  negb (truthy (chaserDriver s)) && negb (truthy (defenderDriver s))
  && result_hidden s.

(** The reply [{success: true, probability: 0.734, confidence: "High"}]. *)
Definition prediction_obj : Json :=
  {| j_events := None; j_laps := None; j_standings := None; j_success := true;
     j_probability := Some (QArith_base.Qmake 367 500);
     j_confidence := Some "High"; j_error := None |}.

(** A complete session: lap 1 of round 5 of 2023, VER chasing HAM, and the
    prediction on display. *)
Definition full_session_trace : list event :=
  [YearChange "2023"; Arrive 0 (Response true (events_json season));
   EventChange "5"; Arrive 1 (Response true (laps_json [1; 2; 3]));
   Arrive 2 (Response true (standings_json grid));
   StandingClick "VER"; StandingClick "HAM";
   PredictClick; Arrive 3 (Response true (JObj prediction_obj))].

(** The state that session ends in. *)
Definition full_session : App := run (new_app start_page) full_session_trace.

(** From there: another lap, another race, another year, each with the
    replies it asks for. *)
Definition change_lap : list event :=
  [LapInput 3; Arrive 4 (Response true (standings_json grid_lap3))].

Definition change_race : list event :=
  [EventChange "6"; Arrive 4 (Response true (laps_json [1; 2]));
   Arrive 5 (Response true (standings_json grid_lap3))].

Definition change_year : list event :=
  [YearChange "2024"; Arrive 4 (Response true (events_json season))].

(** Chaser, defender, and whether a prediction is on display. *)
Definition pair_and_result (s : App) : option string * option string * bool :=
  (chaserDriver s, defenderDriver s, res_visible (predictionResult (dom s))).

(** A request of [loadLaps] or of [loadStandings]. *)
Definition loads_laps_or_standings (q : Request) : bool :=
  match q with
  | GetLaps _ _ | GetStandings _ _ _ => true
  | _ => false
  end.

(** The year 2024 is picked in the complete session; its races are still
    to come. *)
Definition awaiting_events : App := run full_session [YearChange "2024"].

(** *** No fetch without its keys *)

(** The keys a request carries are all set. *)
Definition keys_set (q : Request) : bool :=
  match q with
  | GetEvents year => truthy (Some year)
  | GetLaps year round => truthy (Some year) && truthy (Some round)
  | GetStandings year round lap =>
      truthy (Some year) && truthy (Some round) && truthyZ (Some lap)
  | PostPredict year round lap chaser defender =>
      truthy year && truthy round && truthyZ lap && truthy chaser && truthy defender
  end.

(** The selections upstream of the level a request belongs to are all set
    in state [s]. *)
Definition upstream_set (s : App) (q : Request) : bool :=
  match q with
  | GetEvents _ => truthy (currentYear s)
  | GetLaps _ _ => truthy (currentYear s) && truthy (currentRound s)
  | GetStandings _ _ _ =>
      truthy (currentYear s) && truthy (currentRound s) && truthyZ (currentLap s)
  | PostPredict _ _ _ _ _ =>
      truthy (currentYear s) && truthy (currentRound s) && truthyZ (currentLap s)
      && truthy (chaserDriver s) && truthy (defenderDriver s)
  end.

(** The requests event [e] makes the script issue from state [s]. *)
Definition issued_by (s : App) (e : event) : list Request :=
  map fst (skipn (List.length (requests s)) (requests (step s e))).

(** The event is the arrival of a reply, not an action of the user. *)
Definition is_reply (e : event) : bool :=
  match e with
  | Arrive _ _ => true
  | _ => false
  end.

(** The user empties the race list while the laps of round 5 are loading. *)
Definition race_emptied_trace : list event :=
  [YearChange "2023"; Arrive 0 (Response true (events_json season));
   EventChange "5"; EventChange ""].

(** The state that trace leads to: year 2023, no race, laps on their way. *)
Definition race_emptied : App := run (new_app start_page) race_emptied_trace.

(** What one step adds to the requests, and when. *)
Inductive step_requests (s : App) (e : event) : list Request -> Prop :=
| step_none : step_requests s e []
| step_listener (q : Request) :
    is_reply e = false -> keys_set q = true -> upstream_set (step s e) q = true ->
    step_requests s e [q]
| step_laps (i : nat) (r : Reply) (year round : string) (lap : Z) :
    e = Arrive i r -> nth_error (requests s) i = Some (GetLaps year round, false) ->
    1 <= lap -> step_requests s e [GetStandings year round lap].

(** Every request issued so far carries its keys. *)
Definition all_keys_set (s : App) : Prop :=
  Forall (fun q => keys_set q = true) (map fst (requests s)).

(** *** Further vocabulary *)

(** Two fields that hold [null] or an integer are the same. *)
Definition same_lap (a b : option Z) : bool :=
  match a, b with
  | Some x, Some y => (x =? y)%Z
  | None, None => true
  | _, _ => false
  end.

(** The keys of a request are the values the selection holds in [s]. *)
Definition carries_selection (s : App) (q : Request) : bool :=
  match q with
  | GetEvents year => strict_eq (Some year) (currentYear s)
  | GetLaps year round =>
      strict_eq (Some year) (currentYear s) && strict_eq (Some round) (currentRound s)
  | GetStandings year round lap =>
      strict_eq (Some year) (currentYear s) && strict_eq (Some round) (currentRound s)
      && same_lap (Some lap) (currentLap s)
  | PostPredict year round lap chaser defender =>
      strict_eq year (currentYear s) && strict_eq round (currentRound s)
      && same_lap lap (currentLap s)
      && strict_eq chaser (chaserDriver s) && strict_eq defender (defenderDriver s)
  end.

(** The driver an assignment names. *)
Definition assigned_driver (e : event) : string :=
  match e with
  | ChaserChange v | DefenderChange v | StandingClick v => v
  | _ => ""
  end.

(** The value a pick-list shows once it is rebuilt from [rows] for a field
    holding [v]: the driver if the field is set and the list offers it. *)
Definition resynced (v : option string) (rows : list StandingRow) : string :=
  if truthy v && existsb (fun r => driver r =? str v) rows then str v else "".

(** A pick-list with its placeholder and one option for each row. *)
Definition driver_list (text : string) (rows : list StandingRow) (v : string)
    (off : bool) : Select :=
  {| sel_options := ("", text) :: map driver_option rows;
     sel_value := v; sel_disabled := off |}.

(** The fields and controls downstream of the year. *)
Definition downstream (s : App) :=
  (currentRound s, currentLap s, chaserDriver s, defenderDriver s, standings s,
   res_visible (predictionResult (dom s)), lapSlider (dom s)).


(** What a listener fetches, read off [bindEvents] and [predictUndercut]:
    the races of a year that is not empty; the laps of a race that is not
    empty, under a year that is set; the standings of a lap that is not 0,
    under a year and a race that are set; the prediction for a selection
    that passes the gate. *)
Definition listener_fetch (s : App) (e : event) : list Request :=
  match e with
  | YearChange v => if truthy (Some v) then [GetEvents v] else []
  | EventChange v =>
      if truthy (currentYear s) && truthy (Some v)
      then [GetLaps (str (currentYear s)) v] else []
  | LapInput v =>
      if truthy (currentYear s) && truthy (currentRound s) && truthyZ (Some v)
      then [GetStandings (str (currentYear s)) (str (currentRound s)) v] else []
  | PredictClick =>
      match gate_verdict s with
      | None => [predict_request s]
      | Some _ => []
      end
  | _ => []
  end.

(** The values a pick-list offers. *)
Definition offered (sel : Select) : list string := map fst (sel_options sel).

(** The three surfaces agree with the stored standings: the rows on
    display, if any, are the stored rows in their order, and each pick-list
    offers its empty placeholder and then the stored drivers in their
    order. *)
Definition surfaces_agree (s : App) : Prop :=
  (forall rows, pan_body (standingsList (dom s)) = PanelRows rows ->
                map fst rows = standings s)
  /\ offered (chaserSelect (dom s)) = "" :: map driver (standings s)
  /\ offered (defenderSelect (dom s)) = "" :: map driver (standings s).

(** The lap slider, when enabled, spans laps from 1 up, and the lap
    recorded, if any, is at least 1. *)
Definition laps_from_one (s : App) : Prop :=
  (sl_disabled (lapSlider (dom s)) = false ->
   1 <= sl_min (lapSlider (dom s)) <= sl_max (lapSlider (dom s)))
  /\ (forall lap, currentLap s = Some lap -> 1 <= lap).

(** The complete session up to the click on the predict button: the
    prediction for VER chasing HAM is asked for (request 3) and its reply
    is still to come. *)
Definition predicting_trace : list event := firstn 8 full_session_trace.

Definition predicting : App := run (new_app start_page) predicting_trace.

(** In the complete session the user moves to lap 3 (request 4) and, while
    its standings are awaited, picks HAM as chaser. *)
Definition repick_while_loading : list event := [LapInput 3; ChaserChange "HAM"].

(** * Properties *)

(** Unfolds a method down to the record updates it performs. *)
Ltac unfold_methods :=
  cbv [step exec returns handler resume
       on_yearSelect_change on_eventSelect_change on_lapSlider_input
       on_chaserSelect_change on_defenderSelect_change on_predictBtn_click
       on_error_timeout selectDriver updateSelectedDrivers updateStandingsList
       updateDriverSelects predictUndercut predictUndercut_resume validateSelection
       displayPrediction loadEvents loadEvents_resume loadLaps loadLaps_resume
       loadStandings loadStandings_resume showError clearSelections showLoading
       hideLoading showLoadingInSelect showLoadingInPanel hideLoadingInPanel
       fetch await obj when on_dom modify get try_catch bind ret throw].

Ltac run_method := unfold_methods; cbn.

(** ** Driver assignment *)

(** What [selectDriver] does to the two driver fields. *)
Lemma selectDriver_fields (s : App) (d : string) :
  let s' := step s (StandingClick d) in
  chaserDriver s' = (if truthy (chaserDriver s) then chaserDriver s else Some d)
  /\ defenderDriver s' = (if truthy (chaserDriver s) then Some d else defenderDriver s).
Proof.
  run_method.
  destruct (truthy (chaserDriver s)); cbn;
    [destruct (truthy (defenderDriver s)); cbn |]; destruct (standings s); auto.
Qed.

(** After a click the panel shows the standings again, row for row. *)
Lemma selectDriver_panel (s : App) (d : string) (r : StandingRow)
    (rows : list StandingRow) :
  standings s = r :: rows ->
  let s' := step s (StandingClick d) in
  standings s' = standings s /\ panel_shows_standings s'.
Proof.
  intros Hs. unfold panel_shows_standings. run_method.
  destruct (truthy (chaserDriver s)); cbn;
    [destruct (truthy (defenderDriver s)); cbn |]; rewrite Hs; cbn;
    rewrite ?Hs; auto.
Qed.

(** A row on display can be clicked. *)
Lemma rows_clickable (s : App) (r : StandingRow) :
  panel_shows_standings s -> In r (standings s) ->
  enabled s (StandingClick (driver r)) = true.
Proof.
  intros Hp Hin. cbn. rewrite Hp. apply existsb_exists.
  exists (r, is_selected s r). split; [| apply String.eqb_refl].
  apply (in_map (fun r => (r, is_selected s r))). exact Hin.
Qed.

(** C6: a click on a standings row fills the chaser if there is none, else
    the defender if there is none, else overwrites the defender and keeps
    the chaser; on standings [A, B, C] with nothing selected, the clicks on
    A, B and C in turn can be made and leave chaser A and defender C. *)
Theorem click_assignment_policy :
  (forall (s : App) (d : string),
     let s' := step s (StandingClick d) in
     (truthy (chaserDriver s) = false ->
        chaserDriver s' = Some d /\ defenderDriver s' = defenderDriver s)
     /\ (truthy (chaserDriver s) = true -> truthy (defenderDriver s) = false ->
           defenderDriver s' = Some d /\ chaserDriver s' = chaserDriver s)
     /\ (truthy (chaserDriver s) = true -> truthy (defenderDriver s) = true ->
           defenderDriver s' = Some d /\ chaserDriver s' = chaserDriver s))
  /\ (forall (s : App) (a b c : StandingRow),
        standings s = [a; b; c] -> panel_shows_standings s ->
        chaserDriver s = None -> defenderDriver s = None ->
        truthy (Some (driver a)) = true -> truthy (Some (driver b)) = true ->
        let clicks := [StandingClick (driver a); StandingClick (driver b);
                       StandingClick (driver c)] in
        feasible s clicks = true
        /\ chaserDriver (run s clicks) = Some (driver a)
        /\ defenderDriver (run s clicks) = Some (driver c)).
Proof.
  split.
  - intros s d s'. destruct (selectDriver_fields s d) as [Hc Hd]. fold s' in Hc, Hd.
    repeat split; intros; rewrite ?Hc, ?Hd;
      repeat match goal with H : truthy _ = _ |- _ => rewrite H end; reflexivity.
  - intros s a b c Hs Hp Hc Hd Ha Hb clicks. subst clicks.
    unfold run, fold_left, feasible.
    set (s1 := step s (StandingClick (driver a))).
    set (s2 := step s1 (StandingClick (driver b))).
    destruct (selectDriver_fields s (driver a)) as [Hc1 Hd1]. fold s1 in Hc1, Hd1.
    rewrite Hc in Hc1, Hd1. cbn in Hc1, Hd1.
    destruct (selectDriver_fields s1 (driver b)) as [Hc2 Hd2]. fold s2 in Hc2, Hd2.
    rewrite Hc1, Ha in Hc2, Hd2.
    destruct (selectDriver_fields s2 (driver c)) as [Hc3 Hd3].
    rewrite Hc2, Ha in Hc3, Hd3.
    destruct (selectDriver_panel s (driver a) a [b; c] Hs) as [Hs1 Hp1].
    fold s1 in Hs1, Hp1. rewrite Hs in Hs1.
    destruct (selectDriver_panel s1 (driver b) a [b; c] Hs1) as [Hs2 Hp2].
    fold s2 in Hs2, Hp2. rewrite Hs1 in Hs2.
    rewrite (rows_clickable s a Hp), (rows_clickable s1 b Hp1),
      (rows_clickable s2 c Hp2); [auto | rewrite Hs2 | rewrite Hs1 | rewrite Hs];
      cbn; auto.
Qed.

Lemma click_assignment_witness :
  let s := nothing_selected [row 1 "A"; row 2 "B"; row 3 "C"] in
  let clicks := [StandingClick "A"; StandingClick "B"; StandingClick "C"] in
  feasible s clicks = true
  /\ chaserDriver (run s clicks) = Some "A"
  /\ defenderDriver (run s clicks) = Some "C".
Proof.
  apply (proj2 click_assignment_policy
           (nothing_selected [row 1 "A"; row 2 "B"; row 3 "C"])
           (row 1 "A") (row 2 "B") (row 3 "C")); reflexivity.
Defined.

(** C10: after a driver is assigned, from a pick-list or by a click on a
    row, the predict button is enabled exactly when chaser and defender are
    both non-empty; two equal drivers enable it like any other pair. *)
Theorem predict_enabled_iff_both_set (s : App) (e : event) :
  assigns_driver e = true ->
  let s' := step s e in
  (btn_disabled (predictBtn (dom s')) = false <-> both_set s' = true)
  /\ (forall d, chaserDriver s' = Some d -> defenderDriver s' = Some d ->
        truthy (Some d) = true -> btn_disabled (predictBtn (dom s')) = false).
Proof.
  intros He s'.
  assert (H : btn_disabled (predictBtn (dom s')) = negb (both_set s')).
  { subst s'. unfold both_set.
    destruct e; try discriminate; run_method.
    - destruct (standings s); reflexivity.
    - destruct (standings s); reflexivity.
    - destruct (truthy (chaserDriver s)) eqn:Hc; cbn;
        [destruct (truthy (defenderDriver s)) eqn:Hd; cbn |];
        destruct (standings s); cbn; rewrite ?Hc; reflexivity. }
  split.
  - rewrite H. destruct (both_set s'); cbn; intuition congruence.
  - intros d Hc Hd Ht. rewrite H. unfold both_set. rewrite Hc, Hd, Ht. reflexivity.
Qed.

Lemma predict_enabled_witness :
  btn_disabled (predictBtn (dom (step same_driver_twice (StandingClick "VER")))) = false.
Proof.
  apply (proj2 (predict_enabled_iff_both_set same_driver_twice (StandingClick "VER")
                  eq_refl) "VER"); reflexivity.
Defined.

(** ** The prediction request *)

(** [validateSelection] computes the verdict of the gate. *)
Lemma validateSelection_verdict (s : App) :
  fst (validateSelection s)
  = Some (match gate_verdict s with Some _ => false | None => true end).
Proof.
  unfold gate_verdict. run_method.
  destruct (truthy (currentYear s)), (truthy (currentRound s)),
    (truthyZ (currentLap s)); cbn.
  2-8: destruct (middlePanel (dom s)); reflexivity.
  destruct (truthy (chaserDriver s)), (truthy (defenderDriver s)); cbn.
  2-4: destruct (middlePanel (dom s)); reflexivity.
  destruct (strict_eq (chaserDriver s) (defenderDriver s)); cbn;
    [destruct (middlePanel (dom s)) |]; reflexivity.
Qed.

(** C5: the gate checks year, round and lap, then chaser and defender,
    then that the two differ; the first check that fails shows its one
    message and no request is sent. A selection with all five fields set
    and chaser equal to defender is rejected with "Chaser and defender
    must be different drivers". *)
Theorem validation_gate (s : App) :
  middlePanel (dom s) = true ->
  let s' := step s PredictClick in
  match gate_verdict s with
  | Some message =>
      errorMessages (dom s') = [(errorSerial (dom s), message)]
      /\ requests s' = requests s
  | None => requests s' = (requests s ++ [(predict_request s, false)])%list
  end
  /\ (truthy (currentYear s) && truthy (currentRound s) && truthyZ (currentLap s) = true ->
      truthy (chaserDriver s) = true ->
      chaserDriver s = defenderDriver s ->
      errorMessages (dom s')
      = [(errorSerial (dom s), "Chaser and defender must be different drivers")]
      /\ requests s' = requests s).
Proof.
  intros Hm s'.
  assert (G : match gate_verdict s with
              | Some message =>
                  errorMessages (dom s') = [(errorSerial (dom s), message)]
                  /\ requests s' = requests s
              | None => requests s' = (requests s ++ [(predict_request s, false)])%list
              end).
  { subst s'. unfold gate_verdict, predict_request. run_method.
    destruct (truthy (currentYear s)), (truthy (currentRound s)),
      (truthyZ (currentLap s)); cbn; rewrite ?Hm; cbn; auto.
    destruct (truthy (chaserDriver s)), (truthy (defenderDriver s)); cbn;
      rewrite ?Hm; cbn; auto.
    destruct (strict_eq (chaserDriver s) (defenderDriver s)); cbn;
      rewrite ?Hm; cbn; auto. }
  split; [exact G |].
  intros H3 Hc Heq. unfold gate_verdict in G.
  rewrite H3, <- Heq, Hc in G. cbn in G.
  destruct (chaserDriver s) as [c |]; [| discriminate Hc].
  cbn in G. rewrite String.eqb_refl in G. exact G.
Qed.

Lemma validation_gate_witness :
  let s' := step verstappen_twice PredictClick in
  errorMessages (dom s') = [(0%nat, "Chaser and defender must be different drivers")]
  /\ requests s' = [].
Proof.
  apply (proj2 (validation_gate verstappen_twice eq_refl)); reflexivity.
Defined.

(** C9, as the code has it: when the reply to a prediction request arrives,
    whatever it is, the predict button is left idle and enabled; a non-2xx
    reply whose body is a JSON object shows the error text of that object,
    or "Prediction failed" when it has none; a reply that is no JSON object
    (a failed fetch, a body that is not JSON or that parses to [null]),
    whatever its status, shows "Failed to get prediction". *)
Theorem predict_settles_idle (s : App) (i : nat) (r : Reply)
    (year round_num : option string) (lap_number : option Z)
    (chaser defender : option string) :
  nth_error (requests s) i
  = Some (PostPredict year round_num lap_number chaser defender, false) ->
  let s' := step s (Arrive i r) in
  predictBtn (dom s')
  = {| btn_disabled := false; btn_loading := false;
       btn_label := Some "Predict Undercut" |}
  /\ busy (predictBtn (dom s')) = false
  /\ (forall o, r = Response false (JObj o) -> middlePanel (dom s) = true ->
        (forall text, j_error o = Some text -> truthy (Some text) = true ->
           errorMessages (dom s') = [(errorSerial (dom s), text)])
        /\ (truthy (j_error o) = false ->
           errorMessages (dom s') = [(errorSerial (dom s), "Prediction failed")]))
  /\ (not_an_object r = true -> middlePanel (dom s) = true ->
      errorMessages (dom s') = [(errorSerial (dom s), "Failed to get prediction")]).
Proof.
  intros Hq s'.
  assert (B : predictBtn (dom s')
              = {| btn_disabled := false; btn_loading := false;
                   btn_label := Some "Predict Undercut" |}).
  { subst s'. run_method. rewrite Hq. cbn.
    destruct r as [| [] []]; cbn; try reflexivity.
    all: destruct (middlePanel (dom s)); reflexivity. }
  split; [exact B |]. split; [rewrite B; reflexivity |]. split.
  - intros o -> Hm.
    assert (E : errorMessages (dom s')
                = [(errorSerial (dom s), or_else (j_error o) "Prediction failed")]).
    { subst s'. unfold_methods. cbn -[or_else]. rewrite Hq. cbn -[or_else].
      rewrite Hm. reflexivity. }
    rewrite E. unfold or_else. split.
    + intros text He Ht. rewrite He, Ht. reflexivity.
    + intros He. destruct (j_error o) as [text |]; [rewrite He |]; reflexivity.
  - intros Hr Hm. subst s'. run_method. rewrite Hq. cbn.
    destruct r as [| [|] [| o]]; try discriminate Hr; cbn; rewrite Hm; reflexivity.
Qed.

Lemma predict_settles_witness :
  (let s' := step predicting
                  (Arrive 3 (Response false (error_json (Some "No such lap")))) in
   busy (predictBtn (dom s')) = false
   /\ errorMessages (dom s') = [(0%nat, "No such lap")])
  /\ (let s' := step predicting (Arrive 3 NetFail) in
      busy (predictBtn (dom s')) = false
      /\ errorMessages (dom s') = [(0%nat, "Failed to get prediction")]).
Proof.
  pose proof (predict_settles_idle predicting 3
                (Response false (error_json (Some "No such lap")))
                (Some "2023") (Some "5") (Some 1) (Some "VER") (Some "HAM")) as H1.
  pose proof (predict_settles_idle predicting 3 NetFail
                (Some "2023") (Some "5") (Some 1) (Some "VER") (Some "HAM")) as H2.
  specialize (H1 ltac:(vm_compute; reflexivity)).
  specialize (H2 ltac:(vm_compute; reflexivity)).
  cbv zeta in H1, H2.
  destruct H1 as [_ [Hb1 [He1 _]]]. destruct H2 as [_ [Hb2 [_ He2]]].
  specialize (He1 _ eq_refl ltac:(vm_compute; reflexivity)).
  specialize (He2 eq_refl ltac:(vm_compute; reflexivity)).
  pose proof (proj1 He1 "No such lap" eq_refl eq_refl) as He1'.
  vm_compute in Hb1, Hb2, He1', He2 |- *.
  exact (conj (conj Hb1 He1') (conj Hb2 He2)).
Defined.

(** C9, as stated, fails: a prediction is answered with a non-2xx status
    and a body that parses to [null]; the button is left idle, but the
    message shown is "Failed to get prediction", neither a text of the
    server nor "Prediction failed". *)
Lemma predict_failure_without_object :
  let late := Arrive 3 (Response false JNull) in
  feasible (new_app start_page) predicting_trace = true
  /\ enabled predicting late = true
  /\ nth_error (requests predicting) 3
     = Some (PostPredict (Some "2023") (Some "5") (Some 1) (Some "VER") (Some "HAM"),
             false)
  /\ busy (predictBtn (dom (step predicting late))) = false
  /\ errorMessages (dom (step predicting late)) = [(0%nat, "Failed to get prediction")]
  /\ errorMessages (dom (step predicting late)) <> [(0%nat, "Prediction failed")].
Proof. vm_compute. repeat split; discriminate. Qed.

(** ** Loading the lap set *)

Lemma Math_min_least (xs : list Z) : forall x, least (Math_min x xs) (x :: xs).
Proof.
  unfold Math_min, least.
  induction xs as [| y ys IH]; intros x; cbn [fold_left].
  - split; [left; reflexivity | repeat constructor; lia].
  - destruct (IH (Z.min x y)) as [Hin Hall]. split.
    + destruct Hin as [Hin | Hin]; [| right; right; exact Hin].
      rewrite <- Hin. destruct (Z.min_spec x y) as [[_ ->] | [_ ->]]; cbn; auto.
    + inversion Hall as [| ? ? Hm Hys]; subst.
      repeat constructor; try lia. exact Hys.
Qed.

Lemma Math_max_greatest (xs : list Z) : forall x, greatest (Math_max x xs) (x :: xs).
Proof.
  unfold Math_max, greatest.
  induction xs as [| y ys IH]; intros x; cbn [fold_left].
  - split; [left; reflexivity | repeat constructor; lia].
  - destruct (IH (Z.max x y)) as [Hin Hall]. split.
    + destruct Hin as [Hin | Hin]; [| right; right; exact Hin].
      rewrite <- Hin. destruct (Z.max_spec x y) as [[_ ->] | [_ ->]]; cbn; auto.
    + inversion Hall as [| ? ? Hm Hys]; subst.
      repeat constructor; try lia. exact Hys.
Qed.

Lemma least_unique (l : list Z) (a b : Z) : least a l -> least b l -> a = b.
Proof.
  intros [Ha Hla] [Hb Hlb]. rewrite Forall_forall in Hla, Hlb.
  specialize (Hla _ Hb). specialize (Hlb _ Ha). lia.
Qed.

Lemma greatest_unique (l : list Z) (a b : Z) : greatest a l -> greatest b l -> a = b.
Proof.
  intros [Ha Hla] [Hb Hlb]. rewrite Forall_forall in Hla, Hlb.
  specialize (Hla _ Hb). specialize (Hlb _ Ha). lia.
Qed.

Lemma valid_laps_positive (laps : list Z) (x : Z) : In x (valid_laps laps) -> 1 <= x.
Proof. unfold valid_laps. rewrite filter_In. intros [_ H]. lia. Qed.

(** A value within the range is what the slider keeps. *)
Lemma sanitize_within (lo hi v : Z) : lo <= v <= hi -> sanitize lo hi v = v.
Proof.
  intros H. unfold sanitize.
  destruct (Z.ltb_spec v lo); [lia |].
  destruct (Z.ltb_spec hi v); [lia |]. rewrite andb_false_r. reflexivity.
Qed.

(** The state [loadLaps] leaves when the reply holds a lap of at least 1:
    the slider spans the valid laps and sits on the least, which is the
    lap the standings are then asked for. *)
Lemma loadLaps_resume_valid (s : App) (year round : string) (ok : bool) (o : Json)
    (laps : list Z) (v : Z) (vs : list Z) :
  j_laps o = Some laps ->
  valid_laps laps = v :: vs ->
  let lo := Math_min v vs in
  let hi := Math_max v vs in
  let s' := exec (loadLaps_resume year round (Response ok (JObj o))) s in
  lapSlider (dom s')
  = {| sl_min := lo; sl_max := hi; sl_value := lo; sl_disabled := false |}
  /\ currentLap s' = Some lo
  /\ requests s' = (requests s ++ [(GetStandings year round lo, false)])%list.
Proof.
  intros Ho Hv lo hi s'.
  assert (Hlo : least lo (v :: vs)) by apply Math_min_least.
  assert (Hhi : greatest hi (v :: vs)) by apply Math_max_greatest.
  assert (H1 : 1 <= lo).
  { apply (valid_laps_positive laps). rewrite Hv. apply Hlo. }
  assert (Hle : lo <= hi).
  { destruct Hlo as [Hin _], Hhi as [_ Hall]. rewrite Forall_forall in Hall. auto. }
  assert (Hmax : Z.max 1 lo = lo) by lia.
  destruct laps as [| l ls]; [discriminate Hv |].
  subst s'. unfold_methods. cbn -[Z.max Math_min Math_max filter sanitize].
  rewrite Ho. cbn -[Z.max Math_min Math_max filter sanitize].
  unfold valid_laps in Hv. rewrite Hv.
  cbn -[Z.max Math_min Math_max filter sanitize].
  fold lo. fold hi. rewrite Hmax.
  unfold slider_disable, slider_assign, slider_set_max, slider_set_min.
  cbn [sl_min sl_max sl_value sl_disabled].
  rewrite !(sanitize_within lo hi lo) by lia. auto.
Qed.

(** C7: when the lap set received holds a lap of at least 1, [loadLaps]
    drops the laps below 1, sets the slider range to the least and the
    greatest of the rest, makes [max(1, least)] the current lap and at once
    asks for the standings of that lap; for laps [-2, -1, 0, 1, 3, 5] the
    range is [1, 5] and the lap is 1. *)
Theorem loadLaps_default_lap (s : App) (i : nat) (year round : string) (ok : bool)
    (o : Json) (laps : list Z) :
  nth_error (requests s) i = Some (GetLaps year round, false) ->
  j_laps o = Some laps ->
  (exists lap, In lap laps /\ 1 <= lap) ->
  let s' := step s (Arrive i (Response ok (JObj o))) in
  (exists lo hi, least lo (valid_laps laps) /\ greatest hi (valid_laps laps))
  /\ (forall lo hi, least lo (valid_laps laps) -> greatest hi (valid_laps laps) ->
        sl_min (lapSlider (dom s')) = lo
        /\ sl_max (lapSlider (dom s')) = hi
        /\ sl_disabled (lapSlider (dom s')) = false
        /\ currentLap s' = Some (Z.max 1 lo)
        /\ requests s'
           = (settle i (requests s)
              ++ [(GetStandings year round (Z.max 1 lo), false)])%list).
Proof.
  intros Hq Ho [lap [Hin Hlap]] s'.
  destruct (valid_laps laps) as [| v vs] eqn:Hv.
  { exfalso. assert (H : In lap (valid_laps laps)).
    { unfold valid_laps. apply filter_In. split; [exact Hin | lia]. }
    rewrite Hv in H. exact H. }
  split.
  { exists (Math_min v vs), (Math_max v vs).
    split; [apply Math_min_least | apply Math_max_greatest]. }
  intros lo hi Hlo Hhi.
  rewrite (least_unique _ _ _ Hlo (Math_min_least vs v)).
  rewrite (greatest_unique _ _ _ Hhi (Math_max_greatest vs v)).
  assert (H1 : 1 <= Math_min v vs).
  { apply (valid_laps_positive laps). rewrite Hv. apply Math_min_least. }
  replace (Z.max 1 (Math_min v vs)) with (Math_min v vs) by lia.
  assert (E : s' = exec (loadLaps_resume year round (Response ok (JObj o)))
                        (set_requests (settle i (requests s)) s)).
  { subst s'. unfold step, exec, handler, bind, get, modify. rewrite Hq. reflexivity. }
  destruct (loadLaps_resume_valid (set_requests (settle i (requests s)) s)
              year round ok o laps v vs Ho Hv) as [Hs [Hl Hr]].
  rewrite <- E in Hs, Hl, Hr. rewrite Hs, Hl, Hr. cbn. auto.
Qed.

Lemma loadLaps_default_lap_witness :
  let s' := step awaiting_laps (Arrive 1 (Response true (laps_json [-2; -1; 0; 1; 3; 5]))) in
  sl_min (lapSlider (dom s')) = 1
  /\ sl_max (lapSlider (dom s')) = 5
  /\ sl_disabled (lapSlider (dom s')) = false
  /\ currentLap s' = Some 1
  /\ requests s' = [(GetEvents "2023", true); (GetLaps "2023" "5", true);
                    (GetStandings "2023" "5" 1, false)].
Proof.
  refine (proj2 (loadLaps_default_lap awaiting_laps 1 "2023" "5" true (laps_obj [-2; -1; 0; 1; 3; 5])
                   [-2; -1; 0; 1; 3; 5] eq_refl eq_refl _) 1 5 _ _).
  - exists 1. split; [simpl; auto 10 | lia].
  - split; [simpl; auto | repeat constructor; lia].
  - split; [simpl; auto | repeat constructor; lia].
Defined.

(** Delivering a reply marks the request answered and runs what the
    request left behind. *)
Lemma step_arrive (s : App) (i : nat) (q : Request) (r : Reply) :
  nth_error (requests s) i = Some (q, false) ->
  step s (Arrive i r) = exec (resume q r) (set_requests (settle i (requests s)) s).
Proof.
  intros Hq. unfold step, exec, handler, bind, get, modify. rewrite Hq. reflexivity.
Qed.

(** C8, as the code has it: when the lap set received is empty, or holds no
    lap of at least 1, [loadLaps] shows "No pit stop data available for this
    race", respectively "No valid lap data available (all laps are below
    1)", asks for no standings, and leaves the lap slider and the current
    lap as they were: a slider that was disabled stays disabled. *)
Theorem loadLaps_without_valid_laps (s : App) (i : nat) (year round : string)
    (ok : bool) (o : Json) :
  nth_error (requests s) i = Some (GetLaps year round, false) ->
  middlePanel (dom s) = true ->
  valid_laps (raw_laps o) = [] ->
  let s' := step s (Arrive i (Response ok (JObj o))) in
  (raw_laps o = [] ->
     errorMessages (dom s')
     = [(errorSerial (dom s), "No pit stop data available for this race")])
  /\ (raw_laps o <> [] ->
     errorMessages (dom s')
     = [(errorSerial (dom s), "No valid lap data available (all laps are below 1)")])
  /\ requests s' = settle i (requests s)
  /\ lapSlider (dom s') = lapSlider (dom s)
  /\ currentLap s' = currentLap s
  /\ (sl_disabled (lapSlider (dom s)) = true -> sl_disabled (lapSlider (dom s')) = true).
Proof.
  intros Hq Hm Hv s'. subst s'. rewrite (step_arrive _ _ _ _ Hq).
  unfold raw_laps, valid_laps in *.
  unfold resume. unfold_methods. cbn -[filter].
  destruct (j_laps o) as [[| l ls] |]; cbn -[filter]; rewrite ?Hv; cbn;
    rewrite ?Hm; cbn; repeat split; auto; try congruence.
Qed.

(** A first race selection, before any lap set was ever received. *)
Lemma loadLaps_without_valid_laps_witness :
  let s' := step awaiting_laps (Arrive 1 (Response true (laps_json [-3; -1; 0]))) in
  errorMessages (dom s')
  = [(0%nat, "No valid lap data available (all laps are below 1)")]
  /\ requests s' = [(GetEvents "2023", true); (GetLaps "2023" "5", true)]
  /\ sl_disabled (lapSlider (dom s')) = true.
Proof.
  destruct (loadLaps_without_valid_laps awaiting_laps 1 "2023" "5" true
              (laps_obj [-3; -1; 0]) eq_refl eq_refl eq_refl)
    as [_ [He [Hr [_ [_ Hd]]]]].
  split; [apply He; discriminate |]. split; [exact Hr | apply Hd; reflexivity].
Defined.

(** C8, as stated, fails: after a race whose laps had enabled the slider,
    a race with no laps, or with none of at least 1, shows its error and
    leaves the slider enabled. *)
Lemma loadLaps_empty_leaves_slider_enabled :
  feasible (new_app start_page) second_race_trace = true
  /\ (let s' := step awaiting_second_race (Arrive 3 (Response true (laps_json []))) in
      enabled awaiting_second_race (Arrive 3 (Response true (laps_json []))) = true
      /\ errorMessages (dom s') = [(0%nat, "No pit stop data available for this race")]
      /\ sl_disabled (lapSlider (dom s')) = false)
  /\ (let s' := step awaiting_second_race
                     (Arrive 3 (Response true (laps_json [-3; -1; 0]))) in
      errorMessages (dom s')
      = [(0%nat, "No valid lap data available (all laps are below 1)")]
      /\ sl_disabled (lapSlider (dom s')) = false).
Proof. vm_compute. auto 10. Qed.

(** ** Failure paths of the three loaders *)

(** Splits a goal along the tests a method makes. *)
Ltac split_cases :=
  repeat (cbn -[filter Z.max Math_min Math_max sanitize or_else];
          match goal with
          | |- context [match ?x with _ => _ end] =>
              lazymatch x with
              | context [match _ with _ => _ end] => fail
              | _ => destruct x eqn:?
              end
          | |- context [if ?x then _ else _] =>
              lazymatch x with
              | context [if _ then _ else _] => fail
              | context [match _ with _ => _ end] => fail
              | _ => destruct x eqn:?
              end
          end).

(** No listener and no continuation lets a throw escape. *)
Lemma handler_returns (s : App) (e : event) : returns (handler e) s = true.
Proof.
  destruct e as [v | v | v | v | v | d | | i r | n]; unfold returns.
  1-7, 9: unfold_methods; split_cases; reflexivity.
  unfold handler, bind, get.
  destruct (nth_error (requests s) i) as [[q [|]] |]; try reflexivity.
  destruct q; unfold_methods; split_cases; reflexivity.
Qed.

Lemma filter_length_le {A} (f : A -> bool) (l : list A) :
  (List.length (filter f l) <= List.length l)%nat.
Proof.
  induction l as [| x l IH]; cbn; [lia |]. destruct (f x); cbn; lia.
Qed.

(** Error messages do not pile up: a step leaves at most one on the page
    if there was at most one before. *)
Lemma at_most_one_error (s : App) (e : event) :
  (List.length (errorMessages (dom s)) <= 1)%nat ->
  (List.length (errorMessages (dom (step s e))) <= 1)%nat.
Proof.
  intros H.
  destruct e as [v | v | v | v | v | d | | i r | n].
  1-7: unfold_methods; split_cases; cbn; auto.
  - unfold step, exec, handler, bind, get.
    destruct (nth_error (requests s) i) as [[q [|]] |]; try exact H.
    destruct q; unfold_methods; split_cases; cbn; auto.
  - unfold_methods. split_cases; cbn; auto.
    pose proof (filter_length_le (fun e => negb (Nat.eqb (fst e) n))
                  (errorMessages (dom s))).
    lia.
Qed.

Section FailurePaths.

Variable s : App.
Variable i : nat.
Hypothesis page_has_middle_panel : middlePanel (dom s) = true.

(** [loadLaps], on a reply that is no JSON object: the panel stops
    loading, one message is shown and the method returns. *)
Lemma loadLaps_failure_clears_panel (year round : string) (r : Reply) :
  nth_error (requests s) i = Some (GetLaps year round, false) ->
  not_an_object r = true ->
  let s' := step s (Arrive i r) in
  panel_loading (standingsList (dom s')) = false
  /\ errorMessages (dom s') = [(errorSerial (dom s), "Failed to load lap data")]
  /\ returns (handler (Arrive i r)) s = true.
Proof.
  intros Hq Hr s'. subst s'. rewrite (step_arrive _ _ _ _ Hq).
  unfold returns, handler, bind, get, modify. rewrite Hq.
  destruct r as [| ok [| o]]; try discriminate Hr; unfold resume; unfold_methods;
    cbn; rewrite page_has_middle_panel; cbn; auto.
Qed.

(** [loadStandings], likewise. *)
Lemma loadStandings_failure_clears_panel (year round : string) (lap : Z)
    (r : Reply) :
  nth_error (requests s) i = Some (GetStandings year round lap, false) ->
  not_an_object r = true ->
  let s' := step s (Arrive i r) in
  panel_loading (standingsList (dom s')) = false
  /\ errorMessages (dom s')
     = [(errorSerial (dom s), "Failed to load driver standings")]
  /\ returns (handler (Arrive i r)) s = true.
Proof.
  intros Hq Hr s'. subst s'. rewrite (step_arrive _ _ _ _ Hq).
  unfold returns, handler, bind, get, modify. rewrite Hq.
  destruct r as [| ok [| o]]; try discriminate Hr; unfold resume; unfold_methods;
    cbn; rewrite page_has_middle_panel; cbn; auto.
Qed.

(** [loadEvents], on a reply without races: the placeholder is replaced,
    one message is shown and the method returns. *)
Lemma loadEvents_empty_clears_placeholder (year : string) (ok : bool) (o : Json) :
  nth_error (requests s) i = Some (GetEvents year, false) ->
  j_events o = None \/ j_events o = Some [] ->
  let s' := step s (Arrive i (Response ok (JObj o))) in
  select_loading (eventSelect (dom s')) = false
  /\ errorMessages (dom s')
     = [(errorSerial (dom s), "No races found for this year")]
  /\ returns (handler (Arrive i (Response ok (JObj o)))) s = true.
Proof.
  intros Hq Ho s'. subst s'. rewrite (step_arrive _ _ _ _ Hq).
  unfold returns, handler, bind, get, modify. rewrite Hq.
  unfold resume. unfold_methods. cbn.
  destruct Ho as [-> | ->]; cbn; rewrite page_has_middle_panel; cbn; auto.
Qed.

End FailurePaths.

(** [loadEvents], on a failed fetch: the [catch] block only shows the
    message, the race list is not touched. *)
Lemma loadEvents_failure_keeps_select (s : App) (i : nat) (year : string) :
  nth_error (requests s) i = Some (GetEvents year, false) ->
  let s' := step s (Arrive i NetFail) in
  eventSelect (dom s') = eventSelect (dom s).
Proof.
  intros Hq s'. subst s'. rewrite (step_arrive _ _ _ _ Hq).
  unfold resume. unfold_methods. cbn. destruct (middlePanel (dom s)); reflexivity.
Qed.

(** C4 at a failed fetch of the race list: the year 2023 is picked on a
    fresh page and the request fails. One message is shown and nothing is
    thrown, but the race list still reads "Loading..." and is disabled. *)
Theorem loadEvents_failure_stays_loading :
  let s := step (new_app start_page) (YearChange "2023") in
  let s' := step s (Arrive 0 NetFail) in
  requests s = [(GetEvents "2023", false)]
  /\ select_loading (eventSelect (dom s)) = true
  /\ errorMessages (dom s') = [(0%nat, "Failed to load races")]
  /\ returns (handler (Arrive 0 NetFail)) s = true
  /\ select_loading (eventSelect (dom s')) = true
  /\ eventSelect (dom s')
     = {| sel_options := [("", "Loading...")]; sel_value := ""; sel_disabled := true |}.
Proof. vm_compute. auto 10. Qed.

(** ** Stale standings replies *)

(** C2, as stated, fails: the reply for lap 1 arrives while lap 3 is
    selected and shown, and its list takes the place of the list of lap 3. *)
Lemma stale_standings_overwrite :
  let late := Arrive 2 (Response true (standings_json grid)) in
  feasible (new_app start_page) overtaken_trace = true
  /\ enabled overtaken late = true
  /\ nth_error (requests overtaken) 2 = Some (GetStandings "2023" "5" 1, false)
  /\ currentLap overtaken = Some 3
  /\ standings overtaken = grid_lap3
  /\ currentLap (step overtaken late) = Some 3
  /\ standings (step overtaken late) = grid
  /\ standings (step overtaken late) <> standings overtaken.
Proof. vm_compute. repeat split; discriminate. Qed.

(** C2, as the code has it: a standings reply is not compared with the
    selection; when it arrives as a JSON object its list, or the empty list
    if it has none, replaces the standings, whatever lap is selected. *)
Theorem standings_reply_always_stored (s : App) (i : nat) (year round : string)
    (lap : Z) (ok : bool) (o : Json) :
  nth_error (requests s) i = Some (GetStandings year round lap, false) ->
  let s' := step s (Arrive i (Response ok (JObj o))) in
  standings s' = or_empty (j_standings o)
  /\ currentLap s' = currentLap s.
Proof.
  intros Hq s'. subst s'. rewrite (step_arrive _ _ _ _ Hq).
  unfold resume. unfold_methods. cbn.
  destruct (or_empty (j_standings o)); cbn;
    destruct (chaserDriver s) as [c |], (defenderDriver s) as [d |]; cbn;
    repeat match goal with |- context [negb (?x =? "")] => destruct (negb (x =? "")) end;
    cbn; auto.
Qed.

Lemma standings_reply_always_stored_witness :
  let s' := step overtaken (Arrive 2 (Response true (standings_json grid))) in
  standings s' = grid /\ currentLap s' = Some 3.
Proof.
  exact (standings_reply_always_stored overtaken 2 "2023" "5" 1 true
           (standings_obj grid) eq_refl).
Defined.

(** ** What an upstream change clears *)

(** C1, as stated, fails. From the complete session: a lap change, with
    its standings received, keeps chaser, defender and the prediction; so
    does a race change, with its laps and standings received; a year
    change, with its races received, keeps the round and the stored
    standings; and before the reply arrives a year change clears nothing. *)
Lemma upstream_change_keeps_downstream :
  feasible (new_app start_page) full_session_trace = true
  /\ (feasible full_session change_lap = true
      /\ cleared_below_lap (step full_session (LapInput 3)) = false
      /\ cleared_below_lap (run full_session change_lap) = false
      /\ chaserDriver (run full_session change_lap) = Some "VER"
      /\ defenderDriver (run full_session change_lap) = Some "HAM"
      /\ result_hidden (run full_session change_lap) = false)
  /\ (feasible full_session change_race = true
      /\ cleared_below_race (step full_session (EventChange "6")) = false
      /\ cleared_below_race (run full_session change_race) = false
      /\ chaserDriver (run full_session change_race) = Some "VER"
      /\ defenderDriver (run full_session change_race) = Some "HAM"
      /\ result_hidden (run full_session change_race) = false)
  /\ (feasible full_session change_year = true
      /\ cleared_below_year (step full_session (YearChange "2024")) = false
      /\ chaserDriver (step full_session (YearChange "2024")) = Some "VER"
      /\ cleared_below_year (run full_session change_year) = false
      /\ currentRound (run full_session change_year) = Some "5"
      /\ standings (run full_session change_year) = grid).
Proof. vm_compute. auto 20. Qed.

(** The rest of [loadLaps] and of [loadStandings] leaves the driver pair
    and the prediction on display alone, whatever the reply. *)
Lemma resume_keeps_pair (q : Request) (r : Reply) (s : App) :
  loads_laps_or_standings q = true ->
  pair_and_result (exec (resume q r) s) = pair_and_result s.
Proof.
  destruct q as [y | y n | y n l | y n l c d]; try discriminate; intros _;
    unfold pair_and_result, resume.
  - unfold_methods. cbn -[filter Z.max Math_min Math_max sanitize].
    destruct r as [| ok [| o]]; cbn -[filter Z.max Math_min Math_max sanitize];
      try (destruct (middlePanel (dom s)); reflexivity).
    destruct (j_laps o) as [[| l ls] |]; cbn -[filter Z.max Math_min Math_max sanitize];
      try (destruct (middlePanel (dom s)); reflexivity).
    destruct (filter (fun lap => (1 <=? lap)%Z) (l :: ls)) as [| v vs];
      cbn -[Z.max Math_min Math_max sanitize];
      try (destruct (middlePanel (dom s)); reflexivity).
  - unfold_methods. cbn.
    destruct r as [| ok [| o]]; cbn;
      try (destruct (middlePanel (dom s)); reflexivity).
    destruct (or_empty (j_standings o)); cbn; [reflexivity |].
    destruct (chaserDriver s) as [c |] eqn:Hc, (defenderDriver s) as [d |] eqn:Hd; cbn;
      repeat match goal with
             | |- context [negb (?x =? "")] => destruct (negb (x =? ""))
             end; cbn; rewrite ?Hc, ?Hd; reflexivity.
Qed.

(** C1, as the code has it. A year change clears lap, chaser and defender,
    hides the prediction, resets the standings panel to its prompt and
    disables the lap slider, and does so when the race list arrives as a
    JSON object. A race change and a lap change leave chaser, defender and
    the prediction on display as they are, at the change and when the laps
    or standings asked for arrive; a race change leaves lap and standings
    to be replaced by what arrives. *)
Theorem upstream_change_effects :
  (forall (s : App) (i : nat) (year : string) (ok : bool) (o : Json),
     nth_error (requests s) i = Some (GetEvents year, false) ->
     let s' := step s (Arrive i (Response ok (JObj o))) in
     currentLap s' = None /\ chaserDriver s' = None /\ defenderDriver s' = None
     /\ result_hidden s' = true
     /\ pan_body (standingsList (dom s')) = PanelPrompt
     /\ sl_disabled (lapSlider (dom s')) = true)
  /\ (forall (s : App) (v : string),
        let s' := step s (EventChange v) in
        pair_and_result s' = pair_and_result s
        /\ currentLap s' = currentLap s /\ standings s' = standings s)
  /\ (forall (s : App) (v : Z),
        let s' := step s (LapInput v) in
        pair_and_result s' = pair_and_result s /\ standings s' = standings s)
  /\ (forall (s : App) (i : nat) (q : Request) (r : Reply),
        nth_error (requests s) i = Some (q, false) ->
        loads_laps_or_standings q = true ->
        pair_and_result (step s (Arrive i r)) = pair_and_result s).
Proof.
  split; [| split; [| split]].
  - intros s i year ok o Hq s'. subst s'. rewrite (step_arrive _ _ _ _ Hq).
    unfold resume, result_hidden. unfold_methods. cbn.
    destruct (j_events o) as [[| e es] |]; cbn;
      try (destruct (middlePanel (dom s))); auto 10.
  - intros s v. unfold pair_and_result. run_method.
    destruct (truthy (currentYear s)), (negb (v =? "")); auto.
  - intros s v. unfold pair_and_result. run_method.
    destruct (truthy (currentYear s)), (truthy (currentRound s)),
      (negb (v =? 0)%Z); auto.
  - intros s i q r Hq Hl. rewrite (step_arrive _ _ _ _ Hq).
    rewrite (resume_keeps_pair q r _ Hl). reflexivity.
Qed.

Lemma upstream_change_effects_witness :
  (let s' := step awaiting_events (Arrive 4 (Response true (events_json season))) in
   currentLap s' = None /\ chaserDriver s' = None /\ defenderDriver s' = None
   /\ result_hidden s' = true
   /\ pan_body (standingsList (dom s')) = PanelPrompt
   /\ sl_disabled (lapSlider (dom s')) = true)
  /\ pair_and_result
       (step overtaken (Arrive 2 (Response true (standings_json grid))))
     = pair_and_result overtaken.
Proof.
  split.
  - exact (proj1 upstream_change_effects awaiting_events 4%nat "2024" true
             (events_obj season) eq_refl).
  - exact (proj2 (proj2 (proj2 upstream_change_effects)) overtaken 2%nat
             (GetStandings "2023" "5" 1) _ eq_refl eq_refl).
Defined.

(** ** No fetch without its keys *)

(** C3, as stated, fails: the laps of round 5 arrive after the race has
    been emptied, and [loadLaps] asks for the standings of lap 1 of round 5
    while no race is selected. *)
Lemma standings_fetched_without_race :
  let late := Arrive 1 (Response true (laps_json [1; 2; 3])) in
  feasible (new_app start_page) race_emptied_trace = true
  /\ enabled race_emptied late = true
  /\ issued_by race_emptied late = [GetStandings "2023" "5" 1]
  /\ currentRound (step race_emptied late) = Some ""
  /\ upstream_set (step race_emptied late) (GetStandings "2023" "5" 1) = false.
Proof. vm_compute. auto 10. Qed.

Lemma settle_requests (l : list (Request * bool)) :
  forall i, map fst (settle i l) = map fst l.
Proof.
  induction l as [| [q b] l IH]; intros [| i]; cbn; try reflexivity.
  rewrite IH. reflexivity.
Qed.

Lemma truthy_str (v : option string) : truthy v = true -> truthy (Some (str v)) = true.
Proof. destruct v; [auto | discriminate]. Qed.

Ltac close_requests s :=
  cbn; try (destruct (middlePanel (dom s))); cbn;
  rewrite ?settle_requests, ?app_nil_r; reflexivity.

Lemma step_adds (s : App) (e : event) :
  exists new, map fst (requests (step s e)) = (map fst (requests s) ++ new)%list
              /\ step_requests s e new.
Proof.
  destruct e as [v | v | v | v | v | d | | i r | n].
  - destruct (truthy (Some v)) eqn:Hv.
    + exists [GetEvents v]. split.
      * run_method. cbn in Hv. rewrite Hv. cbn. rewrite map_app. reflexivity.
      * apply step_listener; [reflexivity | exact Hv |].
        run_method. cbn in Hv. rewrite Hv. exact Hv.
    + exists []. split; [| constructor].
      run_method. cbn in Hv. rewrite Hv. cbn. rewrite app_nil_r. reflexivity.
  - destruct (truthy (currentYear s) && truthy (Some v)) eqn:Hv.
    + exists [GetLaps (str (currentYear s)) v]. split.
      * run_method. cbn in Hv. rewrite Hv. cbn. rewrite map_app. reflexivity.
      * apply andb_prop in Hv as Hv'. destruct Hv' as [Hy Hr].
        apply step_listener; [reflexivity | |].
        -- cbn -[truthy]. rewrite (truthy_str _ Hy), Hr. reflexivity.
        -- run_method. cbn in Hv. rewrite Hv. exact Hv.
    + exists []. split; [| constructor].
      run_method. cbn in Hv. rewrite Hv. cbn. rewrite app_nil_r. reflexivity.
  - destruct (truthy (currentYear s) && truthy (currentRound s) && truthyZ (Some v))
      eqn:Hv.
    + exists [GetStandings (str (currentYear s)) (str (currentRound s)) v]. split.
      * run_method. cbn in Hv. rewrite Hv. cbn. rewrite map_app. reflexivity.
      * apply andb_prop in Hv as Hv'. destruct Hv' as [Hv' Hl].
        apply andb_prop in Hv'. destruct Hv' as [Hy Hr].
        apply step_listener; [reflexivity | |].
        -- cbn -[truthy truthyZ]. rewrite (truthy_str _ Hy), (truthy_str _ Hr), Hl.
           reflexivity.
        -- run_method. cbn in Hv. rewrite Hv. exact Hv.
    + exists []. split; [| constructor].
      run_method. cbn in Hv. rewrite Hv. cbn. rewrite app_nil_r. reflexivity.
  - exists []. split; [| constructor]. run_method.
    destruct (standings s); cbn; rewrite app_nil_r; reflexivity.
  - exists []. split; [| constructor]. run_method.
    destruct (standings s); cbn; rewrite app_nil_r; reflexivity.
  - exists []. split; [| constructor]. run_method.
    destruct (truthy (chaserDriver s)); cbn;
      [destruct (truthy (defenderDriver s)); cbn |];
      destruct (standings s); cbn; rewrite app_nil_r; reflexivity.
  - pose proof (validateSelection_verdict s) as Hg.
    destruct (gate_verdict s) as [message |] eqn:Hv.
    + exists []. split; [| constructor].
      unfold step, exec, handler, on_predictBtn_click, predictUndercut, bind.
      destruct (validateSelection s) as [res s1] eqn:Hs. cbn in Hg. subst res. cbn.
      rewrite app_nil_r. f_equal.
      change s1 with (snd (Some false, s1)). rewrite <- Hs.
      unfold gate_verdict in Hv. run_method.
      destruct (truthy (currentYear s)), (truthy (currentRound s)),
        (truthyZ (currentLap s)); cbn in *;
        try (destruct (middlePanel (dom s)); reflexivity).
      destruct (truthy (chaserDriver s)), (truthy (defenderDriver s)); cbn in *;
        try (destruct (middlePanel (dom s)); reflexivity).
      destruct (strict_eq (chaserDriver s) (defenderDriver s)); cbn in *;
        [destruct (middlePanel (dom s)); reflexivity | discriminate Hv].
    + exists [predict_request s].
      unfold gate_verdict in Hv.
      destruct (truthy (currentYear s)) eqn:Hy, (truthy (currentRound s)) eqn:Hr,
        (truthyZ (currentLap s)) eqn:Hl; cbn in Hv; try discriminate Hv.
      destruct (truthy (chaserDriver s)) eqn:Hc, (truthy (defenderDriver s)) eqn:Hd;
        cbn in Hv; try discriminate Hv.
      destruct (strict_eq (chaserDriver s) (defenderDriver s)) eqn:He;
        [discriminate Hv |].
      split.
      * run_method. rewrite Hy, Hr, Hl. cbn. rewrite Hc, Hd. cbn. rewrite He. cbn.
        rewrite map_app. reflexivity.
      * apply step_listener; [reflexivity | |].
        -- cbn. rewrite Hy, Hr, Hl, Hc, Hd. reflexivity.
        -- run_method. rewrite Hy, Hr, Hl. cbn. rewrite Hc, Hd. cbn. rewrite He. cbn.
           rewrite Hy, Hr, Hl, Hc, Hd. reflexivity.
  - destruct (nth_error (requests s) i) as [[q [|]] |] eqn:Hq.
    1, 3: exists []; split; [| constructor];
      unfold step, exec, handler, bind, get, ret; rewrite Hq; cbn;
      rewrite app_nil_r; reflexivity.
    rewrite (step_arrive _ _ _ _ Hq).
    destruct q as [y | y n | y n l | y n l c d]; unfold resume.
    + exists []. split; [| constructor]. unfold_methods.
      destruct r as [| ok [| o]]; cbn;
        [| | destruct (j_events o) as [[| e es] |]]; close_requests s.
    + destruct r as [| ok [| o]].
      1, 2: exists []; split; [| constructor]; unfold_methods; close_requests s.
      destruct (valid_laps (raw_laps o)) as [| v vs] eqn:Hv.
      * exists []. split; [| constructor].
        unfold raw_laps, valid_laps in Hv. unfold_methods. cbn -[filter].
        destruct (j_laps o) as [[| l ls] |]; cbn -[filter]; rewrite ?Hv;
          close_requests s.
      * assert (Ho : j_laps o = Some (raw_laps o)).
        { unfold raw_laps in *. destruct (j_laps o); [reflexivity | discriminate Hv]. }
        destruct (loadLaps_resume_valid (set_requests (settle i (requests s)) s)
                    y n ok o (raw_laps o) v vs Ho Hv) as [_ [_ Hr]].
        exists [GetStandings y n (Math_min v vs)]. split.
        -- rewrite Hr. cbn. rewrite map_app, settle_requests. reflexivity.
        -- apply (step_laps s _ i (Response ok (JObj o)) y n); [reflexivity | exact Hq |].
           apply (valid_laps_positive (raw_laps o)). rewrite Hv. apply Math_min_least.
    + exists []. split; [| constructor]. unfold_methods.
      destruct r as [| ok [| o]]; [close_requests s | close_requests s |].
      cbn. destruct (or_empty (j_standings o)); [close_requests s |].
      cbn. destruct (chaserDriver s) as [c |], (defenderDriver s) as [d |]; cbn;
        repeat match goal with
               | |- context [negb (?x =? "")] => destruct (negb (x =? ""))
               end; close_requests s.
    + exists []. split; [| constructor]. unfold_methods.
      destruct r as [| [|] [| o]]; close_requests s.
  - exists []. split; [| constructor]. run_method.
    destruct (existsb (Nat.eqb n) (timers s)); cbn; rewrite app_nil_r; reflexivity.
Qed.

Lemma skipn_length_app {A} (l new : list A) : skipn (List.length l) (l ++ new) = new.
Proof. induction l as [| x l IH]; cbn; auto. Qed.

Lemma issued_by_added (s : App) (e : event) (new : list Request) :
  map fst (requests (step s e)) = (map fst (requests s) ++ new)%list ->
  issued_by s e = new.
Proof.
  intros H. unfold issued_by. rewrite <- skipn_map, H.
  rewrite <- (length_map fst (requests s)). apply skipn_length_app.
Qed.

(** What a step adds carries its keys, provided the requests before did. *)
Lemma step_requests_keys (s : App) (e : event) (new : list Request) :
  all_keys_set s -> step_requests s e new -> Forall (fun q => keys_set q = true) new.
Proof.
  intros Hs Hn. destruct Hn as [| q _ Hk _ | i r year round lap _ Hq Hlap].
  - constructor.
  - repeat constructor. exact Hk.
  - repeat constructor.
    assert (Hin : In (GetLaps year round) (map fst (requests s))).
    { apply (in_map fst _ (GetLaps year round, false)).
      apply (nth_error_In _ _ Hq). }
    unfold all_keys_set in Hs. rewrite Forall_forall in Hs.
    specialize (Hs _ Hin). cbn -[truthy] in *. rewrite Hs. cbn.
    destruct (Z.eqb_spec lap 0); [lia | reflexivity].
Qed.

Lemma step_keeps_keys (s : App) (e : event) : all_keys_set s -> all_keys_set (step s e).
Proof.
  intros Hs. destruct (step_adds s e) as [new [Hr Hn]].
  unfold all_keys_set. rewrite Hr. apply Forall_app. split; [exact Hs |].
  apply (step_requests_keys s e new Hs Hn).
Qed.

Lemma run_keeps_keys (trace : list event) :
  forall s, all_keys_set s -> all_keys_set (run s trace).
Proof.
  induction trace as [| e trace IH]; intros s Hs; cbn; [exact Hs |].
  apply IH. apply step_keeps_keys. exact Hs.
Qed.

(** C3, as the code has it: along every sequence of events, replies
    included, every request issued carries all its keys, none of them
    empty; and a request issued by a selection or by the predict button is
    issued while the selections upstream of its level are all set. (The
    standings request that the arrival of a lap set triggers carries the
    year and round the laps were asked for, whatever is selected by then.) *)
Theorem fetch_keys_always_set (page : Dom) (trace : list event) :
  let s := run (new_app page) trace in
  Forall (fun q => keys_set (fst q) = true) (requests s)
  /\ (forall e, Forall (fun q => keys_set q = true) (issued_by s e))
  /\ (forall e, is_reply e = false ->
        Forall (fun q => upstream_set (step s e) q = true) (issued_by s e)).
Proof.
  intros s.
  assert (Hs : all_keys_set s).
  { apply run_keeps_keys. constructor. }
  split; [| split].
  - unfold all_keys_set in Hs. rewrite Forall_map in Hs. exact Hs.
  - intros e. destruct (step_adds s e) as [new [Hr Hn]].
    rewrite (issued_by_added s e new Hr). apply (step_requests_keys s e new Hs Hn).
  - intros e He. destruct (step_adds s e) as [new [Hr Hn]].
    rewrite (issued_by_added s e new Hr).
    destruct Hn as [| q _ _ Hu | i r year round lap -> _ _].
    + constructor.
    + repeat constructor. exact Hu.
    + discriminate He.
Qed.

Lemma fetch_keys_always_set_witness :
  Forall (fun q => upstream_set (step awaiting_laps (EventChange "6")) q = true)
         (issued_by awaiting_laps (EventChange "6"))
  /\ issued_by awaiting_laps (EventChange "6") = [GetLaps "2023" "6"].
Proof.
  split; [| reflexivity].
  exact (proj2 (proj2 (fetch_keys_always_set start_page
                         [YearChange "2023";
                          Arrive 0 (Response true (events_json season));
                          EventChange "5"]))
           (EventChange "6") eq_refl).
Defined.

(** * Further properties of the script *)

(** ** Errors *)

(** X1: no listener, and no continuation of a request, lets an exception
    escape, whatever the reply: a failed fetch and a body that parses to
    [null] end in the [catch] block of the method. *)
Theorem listeners_never_throw (s : App) (e : event) :
  returns (handler e) s = true
  /\ (forall q r, returns (resume q r) s = true).
Proof.
  split; [apply handler_returns |].
  intros q r. unfold returns.
  destruct q; unfold resume; unfold_methods; split_cases; reflexivity.
Qed.

Lemma run_at_most_one_error (trace : list event) :
  forall s, (List.length (errorMessages (dom s)) <= 1)%nat ->
            (List.length (errorMessages (dom (run s trace))) <= 1)%nat.
Proof.
  induction trace as [| e trace IH]; intros s H; cbn; [exact H |].
  apply IH. apply at_most_one_error. exact H.
Qed.

(** X2: error messages replace one another: on a page that starts with at
    most one, no sequence of events leaves more than one on display. *)
Theorem errors_never_stack (page : Dom) (trace : list event) :
  (List.length (errorMessages page) <= 1)%nat ->
  (List.length (errorMessages (dom (run (new_app page) trace))) <= 1)%nat.
Proof. intros H. apply run_at_most_one_error. exact H. Qed.

Lemma errors_never_stack_witness :
  (List.length (errorMessages (dom (run (new_app start_page)
     [PredictClick; YearChange "2023"; Arrive 0 NetFail; PredictClick]))) <= 1)%nat.
Proof. apply (errors_never_stack start_page). cbn. lia. Defined.

(** X3: the timer of an error removes that error and no other: fired while
    its message is on display it clears the page of errors; fired after a
    newer error has replaced the message it leaves the newer one. *)
Theorem error_timer_removes_its_own (s : App) (first second : string) :
  middlePanel (dom s) = true ->
  let n := errorSerial (dom s) in
  let s1 := exec (showError first) s in
  let s2 := exec (showError second) s1 in
  errorMessages (dom s1) = [(n, first)]
  /\ enabled s1 (ErrorTimeout n) = true
  /\ errorMessages (dom (step s1 (ErrorTimeout n))) = []
  /\ errorMessages (dom s2) = [(S n, second)]
  /\ enabled s2 (ErrorTimeout n) = true
  /\ errorMessages (dom (step s2 (ErrorTimeout n))) = [(S n, second)].
Proof.
  intros Hm n s1 s2. subst n s1 s2.
  assert (Ht : forall l m, existsb (Nat.eqb m) (l ++ [m]) = true).
  { intros l m. rewrite existsb_app. cbn. rewrite Nat.eqb_refl.
    rewrite orb_true_r. reflexivity. }
  assert (Ht2 : forall l m k, existsb (Nat.eqb m) ((l ++ [m]) ++ [k]) = true).
  { intros l m k. rewrite existsb_app, Ht. reflexivity. }
  unfold_methods. cbn. rewrite Hm. cbn. rewrite Hm. cbn.
  rewrite Ht, Ht2. cbn. rewrite Nat.eqb_refl. cbn.
  replace (Nat.eqb (errorSerial (dom s)) (S (errorSerial (dom s)))) with false
    by (symmetry; apply Nat.eqb_neq; lia).
  replace (match errorSerial (dom s) with
           | O => false
           | S m' => Nat.eqb (errorSerial (dom s)) m'
           end) with false.
  2: { destruct (errorSerial (dom s)) as [| m] eqn:E; [reflexivity |].
       symmetry. apply Nat.eqb_neq. lia. }
  cbn. auto 10.
Qed.

Lemma error_timer_witness :
  let s := new_app start_page in
  let s1 := exec (showError "first") s in
  let s2 := exec (showError "second") s1 in
  errorMessages (dom s1) = [(0%nat, "first")]
  /\ enabled s1 (ErrorTimeout 0) = true
  /\ errorMessages (dom (step s1 (ErrorTimeout 0))) = []
  /\ errorMessages (dom s2) = [(1%nat, "second")]
  /\ enabled s2 (ErrorTimeout 0) = true
  /\ errorMessages (dom (step s2 (ErrorTimeout 0))) = [(1%nat, "second")].
Proof.
  exact (error_timer_removes_its_own (new_app start_page) "first" "second" eq_refl).
Defined.

(** ** The race list *)

Lemma append_options {A} (f : A -> string * string) (l : list A) :
  forall sel,
    fold_left (fun sel x => select_append (f x) sel) l sel
    = {| sel_options := sel_options sel ++ map f l;
         sel_value := sel_value sel; sel_disabled := sel_disabled sel |}.
Proof.
  induction l as [| x l IH]; intros sel; cbn.
  - rewrite app_nil_r. destruct sel; reflexivity.
  - rewrite IH. cbn. rewrite <- app_assoc. reflexivity.
Qed.

Lemma nth_error_last {A} (l : list A) (x : A) : nth_error (l ++ [x]) (List.length l) = Some x.
Proof. induction l as [| y l IH]; cbn; auto. Qed.

(** X4: when the races of a year arrive, the race list holds its
    placeholder followed by one option for each race, in the order
    received, valued by the round number and reading "round. name"; the
    list is enabled on the placeholder, no error message is added or
    removed, and every race received can be picked. *)
Theorem loadEvents_fills_race_list (s : App) (i : nat) (year : string) (ok : bool)
    (o : Json) (e : RaceEvent) (es : list RaceEvent) :
  nth_error (requests s) i = Some (GetEvents year, false) ->
  j_events o = Some (e :: es) ->
  let s' := step s (Arrive i (Response ok (JObj o))) in
  eventSelect (dom s')
  = {| sel_options := ("", "Select Race") :: map event_option (e :: es);
       sel_value := ""; sel_disabled := false |}
  /\ errorMessages (dom s') = errorMessages (dom s)
  /\ (forall race, In race (e :: es) ->
        enabled s' (EventChange (string_of_Z (RoundNumber race))) = true).
Proof.
  intros Hq Ho s'.
  assert (E : eventSelect (dom s')
              = {| sel_options := ("", "Select Race") :: map event_option (e :: es);
                   sel_value := ""; sel_disabled := false |}
              /\ errorMessages (dom s') = errorMessages (dom s)).
  { subst s'. rewrite (step_arrive _ _ _ _ Hq). unfold resume. unfold_methods.
    cbn -[fold_left]. rewrite Ho. cbn -[fold_left].
    rewrite append_options. cbn. auto. }
  destruct E as [E1 E2]. repeat split; [exact E1 | exact E2 |].
  intros race Hin. unfold enabled, has_option. rewrite E1.
  cbn [sel_disabled sel_options negb andb].
  apply existsb_exists. exists (event_option race). split.
  - right. apply (in_map event_option). exact Hin.
  - apply String.eqb_refl.
Qed.

Lemma loadEvents_fills_race_list_witness :
  let s' := step (step (new_app start_page) (YearChange "2023"))
                 (Arrive 0 (Response true (events_json season))) in
  eventSelect (dom s')
  = {| sel_options := [("", "Select Race"); ("5", "5. Miami Grand Prix");
                       ("6", "6. Monaco Grand Prix")];
       sel_value := ""; sel_disabled := false |}
  /\ errorMessages (dom s') = []
  /\ enabled s' (EventChange "6") = true.
Proof.
  destruct (loadEvents_fills_race_list (step (new_app start_page) (YearChange "2023"))
              0 "2023" true (events_obj season) _ _ eq_refl eq_refl) as [H1 [H2 H3]].
  split; [exact H1 |]. split; [exact H2 |].
  apply (H3 {| RoundNumber := 6; EventName := "Monaco Grand Prix" |}).
  simpl. auto.
Defined.

(** X5: picking a year puts the race list in its loading state and asks
    for the races of that year, and nothing downstream changes yet; if the
    reply then holds no race, the list is left with its placeholder only
    and disabled, so that no race can be picked, and the error "No races
    found for this year" is shown. *)
Theorem year_without_races (s : App) (year : string) (ok : bool) (o : Json) :
  truthy (Some year) = true ->
  middlePanel (dom s) = true ->
  j_events o = None \/ j_events o = Some [] ->
  let s1 := step s (YearChange year) in
  let s2 := step s1 (Arrive (List.length (requests s)) (Response ok (JObj o))) in
  issued_by s (YearChange year) = [GetEvents year]
  /\ select_loading (eventSelect (dom s1)) = true
  /\ (forall v, enabled s1 (EventChange v) = false)
  /\ downstream s1 = downstream s
  /\ eventSelect (dom s2)
     = {| sel_options := [("", "Select Race")]; sel_value := ""; sel_disabled := true |}
  /\ (forall v, enabled s2 (EventChange v) = false)
  /\ errorMessages (dom s2) = [(errorSerial (dom s), "No races found for this year")].
Proof.
  intros Hy Hm Ho s1 s2.
  assert (R : requests s1 = (requests s ++ [(GetEvents year, false)])%list).
  { subst s1. run_method. cbn in Hy. rewrite Hy. reflexivity. }
  assert (Hq : nth_error (requests s1) (List.length (requests s))
               = Some (GetEvents year, false)).
  { rewrite R. apply nth_error_last. }
  assert (D1 : eventSelect (dom s1)
               = {| sel_options := [("", "Loading...")]; sel_value := "";
                    sel_disabled := true |}).
  { subst s1. run_method. cbn in Hy. rewrite Hy. reflexivity. }
  assert (D2 : eventSelect (dom s2)
               = {| sel_options := [("", "Select Race")]; sel_value := "";
                    sel_disabled := true |}
               /\ errorMessages (dom s2)
                  = [(errorSerial (dom s), "No races found for this year")]).
  { subst s2. rewrite (step_arrive _ _ _ _ Hq). unfold resume. unfold_methods. cbn.
    rewrite D1. cbn.
    assert (Hs1 : middlePanel (dom s1) = true /\ errorSerial (dom s1) = errorSerial (dom s)).
    { subst s1. run_method. cbn in Hy. rewrite Hy. auto. }
    destruct Hs1 as [Hm1 Hn1].
    destruct Ho as [-> | ->]; cbn; rewrite Hm1, Hn1; auto. }
  destruct D2 as [D2 D3].
  repeat split.
  - apply issued_by_added. fold s1. rewrite R, map_app. reflexivity.
  - rewrite D1. reflexivity.
  - intros v. unfold enabled. rewrite D1. reflexivity.
  - subst s1. unfold downstream. run_method. cbn in Hy. rewrite Hy. reflexivity.
  - exact D2.
  - intros v. unfold enabled. rewrite D2. reflexivity.
  - exact D3.
Qed.

Lemma year_without_races_witness :
  let s1 := step (new_app start_page) (YearChange "1949") in
  let s2 := step s1 (Arrive 0 (Response true (events_json []))) in
  issued_by (new_app start_page) (YearChange "1949") = [GetEvents "1949"]
  /\ select_loading (eventSelect (dom s1)) = true
  /\ (forall v, enabled s1 (EventChange v) = false)
  /\ downstream s1 = downstream (new_app start_page)
  /\ eventSelect (dom s2)
     = {| sel_options := [("", "Select Race")]; sel_value := ""; sel_disabled := true |}
  /\ (forall v, enabled s2 (EventChange v) = false)
  /\ errorMessages (dom s2) = [(0%nat, "No races found for this year")].
Proof.
  exact (year_without_races (new_app start_page) "1949" true (events_obj [])
           eq_refl eq_refl (or_intror eq_refl)).
Defined.



(** ** The standings and the pick-lists *)

Lemma has_driver_option (text : string) (rows : list StandingRow) (v : string)
    (value : string) (off : bool) :
  truthy (Some v) = true ->
  has_option v {| sel_options := ("", text) :: map driver_option rows;
                  sel_value := value; sel_disabled := off |}
  = existsb (fun r => driver r =? v) rows.
Proof.
  intros Hv. unfold has_option. cbn [sel_options existsb fst].
  cbn in Hv. rewrite String.eqb_sym.
  destruct (v =? "") eqn:E; [discriminate Hv |]. cbn.
  induction rows as [| r rows IH]; cbn; [reflexivity |]. rewrite IH. reflexivity.
Qed.

(** The pick-list [updateDriverSelects] builds for a field holding [v]. *)
Lemma rebuilt_list (text : string) (rows : list StandingRow) (v : option string)
    (sel : Select) :
  match v with
  | Some c =>
      if truthy (Some c)
      then select_assign c
             (select_disable false
                (fold_left (fun sel r => select_append (driver_option r) sel) rows
                   (select_html text sel)))
      else select_disable false
             (fold_left (fun sel r => select_append (driver_option r) sel) rows
                (select_html text sel))
  | None =>
      select_disable false
        (fold_left (fun sel r => select_append (driver_option r) sel) rows
           (select_html text sel))
  end = driver_list text rows (resynced v rows) false.
Proof.
  unfold driver_list, resynced. rewrite append_options. cbn [sel_options sel_value sel_disabled select_html select_disable app].
  destruct v as [c |]; [| reflexivity].
  destruct (truthy (Some c)) eqn:Hc; [| reflexivity].
  unfold select_assign, select_disable.
  cbn [sel_options sel_value sel_disabled str andb].
  rewrite (has_driver_option text rows c "" false Hc).
  destruct (existsb (fun r => driver r =? c) rows); reflexivity.
Qed.

(** X7: when standings arrive, their list replaces the stored one and the
    panel stops loading and shows it row for row, the rows of chaser and
    defender marked; both pick-lists are rebuilt with the placeholder and
    one option for each row, enabled, and show the chaser, respectively the
    defender, if the new list has that driver and nothing otherwise; the
    chaser and defender fields themselves are kept either way. *)
Theorem loadStandings_shows_standings (s : App) (i : nat) (year round : string)
    (lap : Z) (ok : bool) (o : Json) (r : StandingRow) (rows : list StandingRow) :
  nth_error (requests s) i = Some (GetStandings year round lap, false) ->
  j_standings o = Some (r :: rows) ->
  let s' := step s (Arrive i (Response ok (JObj o))) in
  standings s' = r :: rows
  /\ panel_shows_standings s'
  /\ panel_loading (standingsList (dom s')) = false
  /\ chaserSelect (dom s')
     = driver_list "Select Chaser" (r :: rows) (resynced (chaserDriver s) (r :: rows)) false
  /\ defenderSelect (dom s')
     = driver_list "Select Defender" (r :: rows)
         (resynced (defenderDriver s) (r :: rows)) false
  /\ chaserDriver s' = chaserDriver s
  /\ defenderDriver s' = defenderDriver s.
Proof.
  intros Hq Ho s'. subst s'. rewrite (step_arrive _ _ _ _ Hq).
  unfold resume, panel_shows_standings. unfold_methods.
  cbn -[fold_left truthy]. rewrite Ho. cbn -[fold_left truthy].
  pose proof (rebuilt_list "Select Chaser" (r :: rows) (chaserDriver s)
                (chaserSelect (dom s))) as Hc.
  pose proof (rebuilt_list "Select Defender" (r :: rows) (defenderDriver s)
                (defenderSelect (dom s))) as Hd.
  cbn -[truthy driver_list resynced select_assign select_disable select_html] in Hc, Hd.
  destruct (chaserDriver s) as [c |] eqn:Ec; cbn -[fold_left truthy];
    [destruct (truthy (Some c)) eqn:Tc |];
    (destruct (defenderDriver s) as [d |] eqn:Ed; cbn -[fold_left truthy];
     [destruct (truthy (Some d)) eqn:Td |]);
    cbn -[fold_left truthy driver_list resynced];
    rewrite ?Ec, ?Ed; rewrite <- ?Hc, <- ?Hd;
    cbn -[fold_left truthy]; auto 10.
Qed.

Lemma loadStandings_shows_standings_witness :
  let s' := step (step full_session (LapInput 2))
                 (Arrive 4 (Response true (standings_json [row 1 "HAM"; row 2 "LEC"]))) in
  standings s' = [row 1 "HAM"; row 2 "LEC"]
  /\ sel_value (chaserSelect (dom s')) = ""
  /\ sel_value (defenderSelect (dom s')) = "HAM"
  /\ chaserDriver s' = Some "VER"
  /\ defenderDriver s' = Some "HAM".
Proof.
  pose proof (loadStandings_shows_standings (step full_session (LapInput 2)) 4
                "2023" "5" 2 true (standings_obj [row 1 "HAM"; row 2 "LEC"])
                (row 1 "HAM") [row 2 "LEC"]) as H.
  specialize (H ltac:(vm_compute; reflexivity) eq_refl).
  vm_compute in H |- *. destruct H as [H1 [_ [_ [H4 [H5 [H6 H7]]]]]].
  exact (conj H1 (conj (f_equal sel_value H4) (conj (f_equal sel_value H5)
           (conj H6 H7)))).
Defined.

(** X8: when the standings that arrive are empty or absent, the stored list
    becomes empty, the panel stops loading and reads "No standings data
    available", both pick-lists are left with their placeholder only and
    disabled; no error message is shown for it, and chaser and defender
    are kept. *)
Theorem loadStandings_without_rows (s : App) (i : nat) (year round : string)
    (lap : Z) (ok : bool) (o : Json) :
  nth_error (requests s) i = Some (GetStandings year round lap, false) ->
  or_empty (j_standings o) = [] ->
  let s' := step s (Arrive i (Response ok (JObj o))) in
  standings s' = []
  /\ standingsList (dom s')
     = {| pan_body := PanelNoData; pan_overlay := false; pan_spinner := false |}
  /\ chaserSelect (dom s') = driver_list "Select Chaser" [] "" true
  /\ defenderSelect (dom s') = driver_list "Select Defender" [] "" true
  /\ (forall d, enabled s' (StandingClick d) = false)
  /\ errorMessages (dom s') = errorMessages (dom s)
  /\ chaserDriver s' = chaserDriver s
  /\ defenderDriver s' = defenderDriver s.
Proof.
  intros Hq Ho s'. subst s'. rewrite (step_arrive _ _ _ _ Hq).
  unfold resume, enabled. unfold_methods. cbn. rewrite Ho. cbn. auto 10.
Qed.

Lemma loadStandings_without_rows_witness :
  let s' := step (step full_session (LapInput 2))
                 (Arrive 4 (Response true (standings_json []))) in
  standings s' = []
  /\ pan_body (standingsList (dom s')) = PanelNoData
  /\ sel_disabled (chaserSelect (dom s')) = true
  /\ errorMessages (dom s') = []
  /\ chaserDriver s' = Some "VER".
Proof.
  pose proof (loadStandings_without_rows (step full_session (LapInput 2)) 4
                "2023" "5" 2 true (standings_obj [])) as H.
  specialize (H ltac:(vm_compute; reflexivity) eq_refl).
  vm_compute in H |- *. destruct H as [H1 [H2 [H3 [_ [_ [H6 [H7 _]]]]]]].
  exact (conj H1 (conj (f_equal pan_body H2) (conj (f_equal sel_disabled H3)
           (conj H6 H7)))).
Defined.

(** X9: after a driver is assigned, from a pick-list or by a click, the
    panel shows the stored standings again, row for row, and every row of
    the driver just assigned is marked; with no standings stored it reads
    "No standings data available". *)
Theorem assignment_marks_rows (s : App) (e : event) :
  assigns_driver e = true ->
  let s' := step s e in
  standings s' = standings s
  /\ (standings s <> [] -> panel_shows_standings s')
  /\ (standings s = [] -> pan_body (standingsList (dom s')) = PanelNoData)
  /\ (forall r, driver r = assigned_driver e -> is_selected s' r = true).
Proof.
  intros He s'. subst s'. unfold panel_shows_standings, is_selected.
  assert (Hr : forall x, strict_eq (Some x) (Some x) = true).
  { intros x. apply String.eqb_refl. }
  destruct e as [v | v | v | v | v | d | | i r | n]; try discriminate He;
    cbn [assigned_driver]; run_method.
  - destruct (standings s) eqn:Hs; cbn; rewrite ?Hs; repeat split; try congruence.
    all: intros r ->; rewrite String.eqb_refl; reflexivity.
  - destruct (standings s) eqn:Hs; cbn; rewrite ?Hs; repeat split; try congruence.
    all: intros r ->; rewrite String.eqb_refl; apply orb_true_r.
  - destruct (truthy (chaserDriver s)); cbn;
      [destruct (truthy (defenderDriver s)); cbn |];
      destruct (standings s) eqn:Hs; cbn; rewrite ?Hs; repeat split; try congruence.
    all: intros r ->; rewrite String.eqb_refl; auto using orb_true_r.
Qed.

Lemma assignment_marks_rows_witness :
  let s' := step (nothing_selected grid) (ChaserChange "HAM") in
  pan_body (standingsList (dom s'))
  = PanelRows [(row 1 "VER", false); (row 2 "HAM", true); (row 3 "LEC", false)].
Proof.
  pose proof (assignment_marks_rows (nothing_selected grid) (ChaserChange "HAM")
                eq_refl) as H.
  vm_compute in H |- *. destruct H as [_ [H _]]. apply H. discriminate.
Defined.

(** ** What the listeners fetch *)

(** The requests of a listener, case by case. *)
Lemma listener_issues (s : App) (e : event) :
  is_reply e = false -> issued_by s e = listener_fetch s e.
Proof.
  intros He. apply issued_by_added.
  destruct e as [v | v | v | v | v | d | | i r | n]; try discriminate He;
    unfold listener_fetch.
  - run_method. destruct (negb (v =? "")); cbn; rewrite ?map_app, ?app_nil_r; reflexivity.
  - run_method. destruct (truthy (currentYear s)), (negb (v =? "")); cbn;
      rewrite ?map_app, ?app_nil_r; reflexivity.
  - run_method. destruct (truthy (currentYear s)), (truthy (currentRound s)),
      (negb (v =? 0)%Z); cbn; rewrite ?map_app, ?app_nil_r; reflexivity.
  - run_method. destruct (standings s); cbn; rewrite app_nil_r; reflexivity.
  - run_method. destruct (standings s); cbn; rewrite app_nil_r; reflexivity.
  - run_method. destruct (truthy (chaserDriver s)); cbn;
      [destruct (truthy (defenderDriver s)); cbn |];
      destruct (standings s); cbn; rewrite app_nil_r; reflexivity.
  - unfold gate_verdict, predict_request. run_method.
    destruct (truthy (currentYear s)), (truthy (currentRound s)),
      (truthyZ (currentLap s)); cbn;
      try (destruct (middlePanel (dom s)); cbn; rewrite app_nil_r; reflexivity).
    destruct (truthy (chaserDriver s)), (truthy (defenderDriver s)); cbn;
      try (destruct (middlePanel (dom s)); cbn; rewrite app_nil_r; reflexivity).
    destruct (strict_eq (chaserDriver s) (defenderDriver s)); cbn;
      [destruct (middlePanel (dom s)); cbn; rewrite app_nil_r |
       rewrite map_app]; reflexivity.
  - run_method. destruct (existsb (Nat.eqb n) (timers s)); cbn;
      rewrite app_nil_r; reflexivity.
Qed.

Lemma strict_eq_refl (v : option string) : strict_eq v v = true.
Proof. destruct v; [apply String.eqb_refl | reflexivity]. Qed.

Lemma same_lap_refl (v : option Z) : same_lap v v = true.
Proof. destruct v; [apply Z.eqb_refl | reflexivity]. Qed.

Lemma strict_eq_str (v : option string) :
  truthy v = true -> strict_eq (Some (str v)) v = true.
Proof. destruct v; [intros _; apply String.eqb_refl | discriminate]. Qed.

(** X10: a request issued by a listener (a change of year, race or lap, or
    the predict button) carries exactly the values the selection holds once
    the listener has run; and no event makes the script issue more than one
    request. *)
Theorem listener_requests_carry_selection (s : App) (e : event) :
  (is_reply e = false ->
   Forall (fun q => carries_selection (step s e) q = true) (issued_by s e))
  /\ (List.length (issued_by s e) <= 1)%nat.
Proof.
  split.
  - intros He. rewrite (listener_issues s e He).
    destruct e as [v | v | v | v | v | d | | i r | n]; try discriminate He;
      unfold listener_fetch; try constructor.
    + destruct (truthy (Some v)) eqn:Hv; constructor; [| constructor].
      run_method. cbn in Hv. rewrite Hv. apply String.eqb_refl.
    + destruct (truthy (currentYear s)) eqn:Hy, (truthy (Some v)) eqn:Hv;
        constructor; try constructor.
      unfold carries_selection.
      replace (currentYear (step s (EventChange v))) with (currentYear s).
      2: { run_method. rewrite Hy. cbn in Hv. rewrite Hv. reflexivity. }
      replace (currentRound (step s (EventChange v))) with (Some v).
      2: { run_method. rewrite Hy. cbn in Hv. rewrite Hv. reflexivity. }
      rewrite (strict_eq_str _ Hy), strict_eq_refl. reflexivity.
    + destruct (truthy (currentYear s)) eqn:Hy, (truthy (currentRound s)) eqn:Hr,
        (truthyZ (Some v)) eqn:Hv; constructor; try constructor.
      unfold carries_selection.
      replace (currentYear (step s (LapInput v))) with (currentYear s).
      2: { run_method. rewrite Hy, Hr. cbn in Hv. rewrite Hv. reflexivity. }
      replace (currentRound (step s (LapInput v))) with (currentRound s).
      2: { run_method. rewrite Hy, Hr. cbn in Hv. rewrite Hv. reflexivity. }
      replace (currentLap (step s (LapInput v))) with (Some v).
      2: { run_method. rewrite Hy, Hr. cbn in Hv. rewrite Hv. reflexivity. }
      rewrite (strict_eq_str _ Hy), (strict_eq_str _ Hr), same_lap_refl. reflexivity.
    + destruct (gate_verdict s) eqn:Hg; constructor; [| constructor].
      unfold gate_verdict in Hg. unfold predict_request, carries_selection.
      destruct (truthy (currentYear s)) eqn:Hy, (truthy (currentRound s)) eqn:Hr,
        (truthyZ (currentLap s)) eqn:Hl; cbn in Hg; try discriminate Hg.
      destruct (truthy (chaserDriver s)) eqn:Hc, (truthy (defenderDriver s)) eqn:Hd;
        cbn in Hg; try discriminate Hg.
      destruct (strict_eq (chaserDriver s) (defenderDriver s)) eqn:Hs;
        [discriminate Hg |].
      run_method. rewrite Hy, Hr, Hl. cbn. rewrite Hc, Hd. cbn. rewrite Hs. cbn.
      rewrite !strict_eq_refl, same_lap_refl. reflexivity.
  - destruct (step_adds s e) as [new [Hr Hn]].
    rewrite (issued_by_added s e new Hr). destruct Hn; cbn; lia.
Qed.

Lemma listener_requests_carry_selection_witness :
  Forall (fun q => carries_selection (step awaiting_laps (EventChange "6")) q = true)
         (issued_by awaiting_laps (EventChange "6")).
Proof.
  exact (proj1 (listener_requests_carry_selection awaiting_laps (EventChange "6"))
           eq_refl).
Defined.

(** The disabled flag a driver assignment leaves on the predict button. *)
Lemma predict_enabled_both (s : App) (e : event) :
  assigns_driver e = true ->
  btn_disabled (predictBtn (dom (step s e))) = negb (both_set (step s e)).
Proof.
  intros He. unfold both_set.
  destruct e as [v | v | v | v | v | d | | i r | n]; try discriminate He; run_method.
  - destruct (standings s); reflexivity.
  - destruct (standings s); reflexivity.
  - destruct (truthy (chaserDriver s)) eqn:Hc; cbn;
      [destruct (truthy (defenderDriver s)) eqn:Hd; cbn |];
      destruct (standings s); cbn; rewrite ?Hc; reflexivity.
Qed.

(** No continuation touches the year or the round. *)
Lemma resume_keeps_year_round (q : Request) (r : Reply) (s : App) :
  currentYear (exec (resume q r) s) = currentYear s
  /\ currentRound (exec (resume q r) s) = currentRound s.
Proof.
  destruct q; unfold resume; unfold_methods; split_cases; auto.
Qed.

(** X11: once the laps of a race have arrived, the slider offers exactly
    the laps from the least to the greatest valid lap, those between that
    the lap set lacks included; and if that race is still the one selected,
    moving the slider to any of them asks for the standings of that lap of
    that race. *)
Theorem slider_offers_loaded_range (s : App) (i : nat) (year round : string)
    (ok : bool) (o : Json) (laps : list Z) (lo hi : Z) :
  nth_error (requests s) i = Some (GetLaps year round, false) ->
  j_laps o = Some laps ->
  least lo (valid_laps laps) -> greatest hi (valid_laps laps) ->
  let s' := step s (Arrive i (Response ok (JObj o))) in
  (forall v, enabled s' (LapInput v) = ((lo <=? v) && (v <=? hi))%Z)
  /\ (currentYear s = Some year -> currentRound s = Some round ->
      truthy (Some year) = true -> truthy (Some round) = true ->
      forall v, lo <= v <= hi ->
        issued_by s' (LapInput v) = [GetStandings year round v]).
Proof.
  intros Hq Ho Hlo Hhi s'.
  destruct (valid_laps laps) as [| v0 vs] eqn:Hv; [destruct Hlo as [[] _] |].
  rewrite (least_unique _ _ _ Hlo (Math_min_least vs v0)).
  rewrite (greatest_unique _ _ _ Hhi (Math_max_greatest vs v0)).
  assert (H1 : 1 <= Math_min v0 vs).
  { apply (valid_laps_positive laps). rewrite Hv. apply Math_min_least. }
  assert (E : s' = exec (loadLaps_resume year round (Response ok (JObj o)))
                        (set_requests (settle i (requests s)) s)).
  { subst s'. apply (step_arrive _ _ _ _ Hq). }
  destruct (loadLaps_resume_valid (set_requests (settle i (requests s)) s)
              year round ok o laps v0 vs Ho Hv) as [Hs _].
  rewrite <- E in Hs.
  destruct (resume_keeps_year_round (GetLaps year round) (Response ok (JObj o))
              (set_requests (settle i (requests s)) s)) as [Hy Hr].
  unfold resume in Hy, Hr. rewrite <- E in Hy, Hr. cbn in Hy, Hr.
  split.
  - intros v. unfold enabled. rewrite Hs. reflexivity.
  - intros Ey Er Ty Tr v Hrange.
    rewrite (listener_issues s' (LapInput v) eq_refl). unfold listener_fetch.
    rewrite Hy, Hr, Ey, Er, Ty, Tr. cbn.
    destruct (Z.eqb_spec v 0); [lia | reflexivity].
Qed.

Lemma slider_offers_loaded_range_witness :
  let s' := step awaiting_laps (Arrive 1 (Response true (laps_json [-2; 1; 3; 5]))) in
  enabled s' (LapInput 2) = true
  /\ enabled s' (LapInput 0) = false
  /\ issued_by s' (LapInput 2) = [GetStandings "2023" "5" 2].
Proof.
  assert (Hlo : least 1 (valid_laps [-2; 1; 3; 5])).
  { split; [simpl; auto | repeat constructor; lia]. }
  assert (Hhi : greatest 5 (valid_laps [-2; 1; 3; 5])).
  { split; [simpl; auto | repeat constructor; lia]. }
  destruct (slider_offers_loaded_range awaiting_laps 1 "2023" "5" true
              (laps_obj [-2; 1; 3; 5]) [-2; 1; 3; 5] 1 5 eq_refl eq_refl Hlo Hhi)
    as [He Hi].
  split; [exact (He 2) |]. split; [exact (He 0) |].
  apply (Hi eq_refl eq_refl eq_refl eq_refl 2). lia.
Defined.

(** ** The predict button *)

(** X12: a click on the predict button that passes the gate leaves the
    button busy (disabled, with the loading class and the spinner for a
    label), so that it cannot be clicked again; a click that is rejected
    leaves the button exactly as it was. Either way the selection and the
    prediction on display are untouched. *)
Theorem predict_click_button (s : App) :
  let s' := step s PredictClick in
  match gate_verdict s with
  | None =>
      predictBtn (dom s') = {| btn_disabled := true; btn_loading := true; btn_label := None |}
      /\ enabled s' PredictClick = false
  | Some _ => predictBtn (dom s') = predictBtn (dom s)
  end
  /\ downstream s' = downstream s
  /\ currentYear s' = currentYear s.
Proof.
  intros s'. subst s'. unfold gate_verdict, downstream, enabled. run_method.
  destruct (truthy (currentYear s)), (truthy (currentRound s)),
    (truthyZ (currentLap s)); cbn;
    try (destruct (middlePanel (dom s)); cbn; auto).
  all: destruct (truthy (chaserDriver s)), (truthy (defenderDriver s)); cbn;
    try (destruct (middlePanel (dom s)); cbn; auto).
  all: destruct (strict_eq (chaserDriver s) (defenderDriver s)); cbn;
    try (destruct (middlePanel (dom s)); cbn; auto); auto.
Qed.

(** X13: a driver assignment sets the disabled flag of the predict button
    from the two driver fields alone and leaves its loading class and its
    label as they are: while a prediction is in flight, assigning a driver
    with both fields set makes the button clickable again, spinner and all. *)
Theorem assignment_ignores_busy (s : App) (e : event) :
  assigns_driver e = true ->
  both_set (step s e) = true ->
  let s' := step s e in
  enabled s' PredictClick = true
  /\ btn_loading (predictBtn (dom s')) = btn_loading (predictBtn (dom s))
  /\ btn_label (predictBtn (dom s')) = btn_label (predictBtn (dom s)).
Proof.
  intros He Hb s'. subst s'.
  split; [unfold enabled; rewrite (predict_enabled_both s e He), Hb; reflexivity |].
  clear Hb.
  destruct e as [v | v | v | v | v | d | | i r | n]; try discriminate He; run_method.
  - destruct (standings s); auto.
  - destruct (standings s); auto.
  - destruct (truthy (chaserDriver s)); cbn;
      [destruct (truthy (defenderDriver s)); cbn |]; destruct (standings s); auto.
Qed.

Lemma assignment_ignores_busy_witness :
  let s' := step awaiting_prediction (DefenderChange "LEC") in
  enabled s' PredictClick = true
  /\ btn_loading (predictBtn (dom s')) = true
  /\ btn_label (predictBtn (dom s')) = None.
Proof.
  exact (assignment_ignores_busy awaiting_prediction (DefenderChange "LEC")
           eq_refl eq_refl).
Defined.

(** X14: picking the empty placeholder in the chaser list stores the empty
    string: the chaser box is marked active, since the field is no longer
    [null], yet the predict button is disabled and the chaser counts as not
    assigned, so that the next click on a row fills the chaser again. *)
Theorem placeholder_unassigns_chaser (s : App) :
  let s' := step s (ChaserChange "") in
  chaserDriver s' = Some ""
  /\ chaserBox (dom s') = true
  /\ btn_disabled (predictBtn (dom s')) = true
  /\ (forall d, chaserDriver (step s' (StandingClick d)) = Some d
                /\ defenderDriver (step s' (StandingClick d)) = defenderDriver s).
Proof.
  intros s'.
  assert (H : chaserDriver s' = Some "" /\ defenderDriver s' = defenderDriver s
              /\ chaserBox (dom s') = true
              /\ btn_disabled (predictBtn (dom s')) = true).
  { subst s'. run_method. destruct (standings s); auto. }
  destruct H as [Hc [Hd [Hb Hp]]].
  repeat split; try assumption.
  - destruct (selectDriver_fields s' d) as [H1 _]. rewrite H1, Hc. reflexivity.
  - destruct (selectDriver_fields s' d) as [_ H2]. rewrite H2, Hc, Hd. reflexivity.
Qed.

(** X15: the reset that follows the arrival of the races clears the driver
    fields but not what is derived from them: the predict button and the
    two driver boxes keep the state they had. A click on the button, if it
    was enabled, is then rejected with "Please select year, race, and lap"
    and sends nothing. *)
Theorem reset_keeps_predict_button (s : App) (i : nat) (year : string) (ok : bool)
    (o : Json) :
  nth_error (requests s) i = Some (GetEvents year, false) ->
  middlePanel (dom s) = true ->
  let s' := step s (Arrive i (Response ok (JObj o))) in
  predictBtn (dom s') = predictBtn (dom s)
  /\ chaserBox (dom s') = chaserBox (dom s)
  /\ defenderBox (dom s') = defenderBox (dom s)
  /\ requests (step s' PredictClick) = requests s'
  /\ errorMessages (dom (step s' PredictClick))
     = [(errorSerial (dom s'), "Please select year, race, and lap")].
Proof.
  intros Hq Hm s'.
  assert (H : predictBtn (dom s') = predictBtn (dom s)
              /\ chaserBox (dom s') = chaserBox (dom s)
              /\ defenderBox (dom s') = defenderBox (dom s)
              /\ currentLap s' = None /\ middlePanel (dom s') = true).
  { subst s'. rewrite (step_arrive _ _ _ _ Hq). unfold resume. unfold_methods. cbn.
    destruct (j_events o) as [[| e es] |]; cbn; rewrite ?Hm; cbn; auto 10. }
  destruct H as [H1 [H2 [H3 [Hl Hm']]]].
  repeat split; try assumption.
  - run_method. rewrite Hl.
    destruct (truthy (currentYear s')), (truthy (currentRound s')); cbn;
      rewrite Hm'; reflexivity.
  - run_method. rewrite Hl.
    destruct (truthy (currentYear s')), (truthy (currentRound s')); cbn;
      rewrite Hm'; reflexivity.
Qed.

Lemma reset_keeps_predict_button_witness :
  let s' := step awaiting_events (Arrive 4 (Response true (events_json season))) in
  enabled s' PredictClick = true
  /\ chaserDriver s' = None
  /\ chaserBox (dom s') = true
  /\ requests (step s' PredictClick) = requests s'
  /\ errorMessages (dom (step s' PredictClick))
     = [(0%nat, "Please select year, race, and lap")].
Proof.
  pose proof (reset_keeps_predict_button awaiting_events 4 "2024" true
                (events_obj season)) as H.
  specialize (H ltac:(vm_compute; reflexivity) ltac:(vm_compute; reflexivity)).
  vm_compute in H |- *. destruct H as [H1 [H2 [_ [H4 H5]]]].
  exact (conj (f_equal (fun b => negb (btn_disabled b)) H1)
           (conj eq_refl (conj H2 (conj H4 H5)))).
Defined.

(** X16: a 2xx reply to a prediction shows the result block with the badge
    "SUCCESS" or "FAIL" after the [success] flag, the class to match, and
    the confidence followed by " Confidence"; no error message is added or
    removed. A 2xx reply whose body is [null] shows the block too, with its
    old content, and the error "Failed to get prediction". *)
Theorem prediction_is_rendered (s : App) (i : nat) (o : Json)
    (year round_num : option string) (lap_number : option Z)
    (chaser defender : option string) :
  nth_error (requests s) i
  = Some (PostPredict year round_num lap_number chaser defender, false) ->
  (let s' := step s (Arrive i (Response true (JObj o))) in
   predictionResult (dom s')
   = {| res_visible := true;
        res_badge := if j_success o then "SUCCESS" else "FAIL";
        res_badgeClass := if j_success o then "success-badge success"
                          else "success-badge fail";
        res_probability := j_probability o;
        res_confidence := confidence_text (j_confidence o) |}
   /\ errorMessages (dom s') = errorMessages (dom s))
  /\ (middlePanel (dom s) = true ->
      let s' := step s (Arrive i (Response true JNull)) in
      res_visible (predictionResult (dom s')) = true
      /\ res_badge (predictionResult (dom s')) = res_badge (predictionResult (dom s))
      /\ errorMessages (dom s') = [(errorSerial (dom s), "Failed to get prediction")]).
Proof.
  intros Hq. split.
  - rewrite (step_arrive _ _ _ _ Hq). unfold resume. unfold_methods. cbn. auto.
  - intros Hm. rewrite (step_arrive _ _ _ _ Hq). unfold resume. unfold_methods. cbn.
    rewrite Hm. cbn. auto.
Qed.

Lemma prediction_is_rendered_witness :
  let s' := step awaiting_prediction (Arrive 0 (Response true (JObj prediction_obj))) in
  predictionResult (dom s')
  = {| res_visible := true; res_badge := "SUCCESS";
       res_badgeClass := "success-badge success";
       res_probability := Some (QArith_base.Qmake 367 500);
       res_confidence := "High Confidence" |}
  /\ errorMessages (dom s') = [].
Proof.
  exact (proj1 (prediction_is_rendered awaiting_prediction 0 prediction_obj
                  (Some "2023") (Some "5") (Some 12) (Some "VER") (Some "HAM")
                  eq_refl)).
Defined.

(** X17: a click on a row of a driver that both pick-lists offer shows that
    driver in the pick-list of the slot it fills (the chaser list if no
    chaser was assigned, the defender list otherwise) and leaves the other
    pick-list as it was. *)
Theorem click_syncs_pick_list (s : App) (d : string) :
  has_option d (chaserSelect (dom s)) = true ->
  has_option d (defenderSelect (dom s)) = true ->
  let s' := step s (StandingClick d) in
  if truthy (chaserDriver s)
  then sel_value (defenderSelect (dom s')) = d
       /\ chaserSelect (dom s') = chaserSelect (dom s)
  else sel_value (chaserSelect (dom s')) = d
       /\ defenderSelect (dom s') = defenderSelect (dom s).
Proof.
  intros Hc Hd s'. subst s'. run_method.
  destruct (truthy (chaserDriver s)); cbn;
    [destruct (truthy (defenderDriver s)); cbn |];
    destruct (standings s); cbn; rewrite ?Hc, ?Hd; auto.
Qed.

Lemma click_syncs_pick_list_witness :
  let s' := step (step overtaken (StandingClick "HAM")) (StandingClick "LEC") in
  feasible overtaken [StandingClick "HAM"; StandingClick "LEC"] = true
  /\ sel_value (chaserSelect (dom s')) = "HAM"
  /\ sel_value (defenderSelect (dom s')) = "LEC".
Proof.
  pose proof (click_syncs_pick_list overtaken "HAM") as H1.
  pose proof (click_syncs_pick_list (step overtaken (StandingClick "HAM")) "LEC")
    as H2.
  specialize (H1 ltac:(vm_compute; reflexivity) ltac:(vm_compute; reflexivity)).
  specialize (H2 ltac:(vm_compute; reflexivity) ltac:(vm_compute; reflexivity)).
  vm_compute in H1, H2 |- *.
  destruct H1 as [_ _], H2 as [H2 H3].
  exact (conj eq_refl (conj (f_equal sel_value H3) H2)).
Defined.

(** ** Loading indicators *)

(** What a driver assignment does to the panel: the stored rows are
    rendered anew, which removes the spinner; the overlay class stays. *)
Lemma assignment_rerenders (s : App) (e : event) :
  assigns_driver e = true ->
  let s' := step s e in
  standings s' = standings s
  /\ (standings s <> [] -> panel_shows_standings s')
  /\ pan_overlay (standingsList (dom s')) = pan_overlay (standingsList (dom s))
  /\ pan_spinner (standingsList (dom s')) = false.
Proof.
  intros He s'. subst s'. unfold panel_shows_standings.
  destruct e as [v | v | v | v | v | d | | i r | n]; try discriminate He; run_method.
  - destruct (standings s) eqn:Hs; cbn; rewrite ?Hs; repeat split; congruence.
  - destruct (standings s) eqn:Hs; cbn; rewrite ?Hs; repeat split; congruence.
  - destruct (truthy (chaserDriver s)); cbn;
      [destruct (truthy (defenderDriver s)); cbn |];
      destruct (standings s) eqn:Hs; cbn; rewrite ?Hs; repeat split; congruence.
Qed.

(** X18: a change of race or of lap that fetches empties the standings
    panel and puts it in its loading state, so that right after the change
    no row can be clicked. That lasts until the rows are rendered again: a
    driver assignment, made from a pick-list while the reply is still
    awaited, renders the stored rows anew, and every one of them can be
    clicked again, the spinner gone and the overlay class left in place.
    When the reply to a request for laps or standings arrives, whatever it
    is, the panel stops loading, unless the arrival itself sends the next
    request (the standings of the default lap), in which case the panel is
    loading again. *)
Theorem panel_loading_follows_requests (s : App) :
  (forall e q, is_reply e = false -> In q (issued_by s e) ->
     loads_laps_or_standings q = true ->
     let s' := step s e in
     panel_loading (standingsList (dom s')) = true
     /\ (forall d, enabled s' (StandingClick d) = false))
  /\ (forall e, assigns_driver e = true ->
        let s' := step s e in
        pan_overlay (standingsList (dom s')) = pan_overlay (standingsList (dom s))
        /\ pan_spinner (standingsList (dom s')) = false
        /\ (forall r, In r (standings s) ->
              enabled s' (StandingClick (driver r)) = true))
  /\ (forall i q r, nth_error (requests s) i = Some (q, false) ->
        loads_laps_or_standings q = true ->
        panel_loading (standingsList (dom (step s (Arrive i r))))
        = match issued_by s (Arrive i r) with [] => false | _ => true end).
Proof.
  split.
  - intros e q He Hin Hl s'. subst s'.
    rewrite (listener_issues s e He) in Hin. unfold enabled.
    destruct e as [v | v | v | v | v | d | | i r | n]; try discriminate He;
      unfold listener_fetch in Hin; try (destruct Hin; fail).
    + destruct (truthy (Some v)); [| destruct Hin].
      destruct Hin as [<- | []]. discriminate Hl.
    + destruct (truthy (currentYear s) && truthy (Some v)) eqn:Hv; [| destruct Hin].
      run_method. cbn in Hv. rewrite Hv. cbn. auto.
    + destruct (truthy (currentYear s) && truthy (currentRound s) && truthyZ (Some v))
        eqn:Hv; [| destruct Hin].
      run_method. cbn in Hv. rewrite Hv. cbn. auto.
    + destruct (gate_verdict s); [destruct Hin |].
      destruct Hin as [<- | []]. discriminate Hl.
  - split.
    { intros e He s'.
      destruct (assignment_rerenders s e He) as [Hs [Hp [Ho Hsp]]].
      fold s' in Hs, Hp, Ho, Hsp.
      split; [exact Ho |]. split; [exact Hsp |].
      intros r Hin. apply rows_clickable.
      - apply Hp. intros E. rewrite E in Hin. exact Hin.
      - rewrite Hs. exact Hin. }
    intros i q r Hq Hl.
    destruct (step_adds s (Arrive i r)) as [new [Hr Hn]].
    rewrite (issued_by_added _ _ _ Hr).
    rewrite (step_arrive _ _ _ _ Hq) in *.
    destruct q as [y | y n | y n l | y n l c d]; try discriminate Hl; unfold resume in *.
    + destruct r as [| ok [| o]].
      1, 2: assert (Hnew : new = []);
        [ apply (app_inv_head (map fst (requests s))); rewrite <- Hr, app_nil_r;
          unfold_methods; cbn; destruct (middlePanel (dom s)); cbn;
          apply settle_requests
        | subst new; unfold_methods; cbn; destruct (middlePanel (dom s)); reflexivity ].
      destruct (valid_laps (raw_laps o)) as [| v vs] eqn:Hv.
      * assert (Hnew : new = []).
        { apply (app_inv_head (map fst (requests s))). rewrite <- Hr, app_nil_r.
          unfold raw_laps, valid_laps in Hv. unfold_methods. cbn -[filter].
          destruct (j_laps o) as [[| l ls] |]; cbn -[filter]; rewrite ?Hv; cbn;
            destruct (middlePanel (dom s)); cbn; apply settle_requests. }
        subst new. unfold raw_laps, valid_laps in Hv. unfold_methods. cbn -[filter].
        destruct (j_laps o) as [[| l ls] |]; cbn -[filter]; rewrite ?Hv; cbn;
          destruct (middlePanel (dom s)); reflexivity.
      * assert (Ho : j_laps o = Some (raw_laps o)).
        { unfold raw_laps in *. destruct (j_laps o); [reflexivity | discriminate Hv]. }
        destruct (loadLaps_resume_valid (set_requests (settle i (requests s)) s)
                    y n ok o (raw_laps o) v vs Ho Hv) as [_ [_ Hreq]].
        assert (Hnew : new = [GetStandings y n (Math_min v vs)]).
        { apply (app_inv_head (map fst (requests s))). rewrite <- Hr, Hreq.
          cbn. rewrite map_app, settle_requests. reflexivity. }
        subst new.
        destruct (raw_laps o) as [| l ls] eqn:Hraw; [discriminate Hv |].
        unfold valid_laps in Hv. unfold_methods.
        cbn -[filter Z.max Math_min Math_max sanitize].
        rewrite Ho. cbn -[filter Z.max Math_min Math_max sanitize].
        rewrite Hv. reflexivity.
    + assert (Hnew : new = []).
      { apply (app_inv_head (map fst (requests s))). rewrite <- Hr, app_nil_r.
        unfold_methods.
        destruct r as [| ok [| o]]; [close_requests s | close_requests s |].
        cbn. destruct (or_empty (j_standings o)); [close_requests s |].
        cbn. destruct (chaserDriver s) as [c |], (defenderDriver s) as [d |]; cbn;
          repeat match goal with
                 | |- context [negb (?x =? "")] => destruct (negb (x =? ""))
                 end; cbn; rewrite ?settle_requests; reflexivity. }
      subst new. unfold_methods.
      destruct r as [| ok [| o]]; cbn;
        try (destruct (middlePanel (dom s)); reflexivity).
      destruct (or_empty (j_standings o)); cbn; [reflexivity |].
      destruct (chaserDriver s) as [c |], (defenderDriver s) as [d |]; cbn;
        repeat match goal with
               | |- context [negb (?x =? "")] => destruct (negb (x =? ""))
               end; reflexivity.
Qed.

Lemma panel_loading_follows_requests_witness :
  let s' := step awaiting_laps (Arrive 1 (Response true (laps_json [1; 2; 3]))) in
  panel_loading (standingsList (dom (step awaiting_second_race (EventChange "5")))) = true
  /\ panel_loading (standingsList (dom s')) = true
  /\ panel_loading
       (standingsList (dom (step s' (Arrive 2 (Response true (standings_json grid))))))
     = false
  /\ (feasible full_session repick_while_loading = true
      /\ nth_error (requests (run full_session repick_while_loading)) 4
         = Some (GetStandings "2023" "5" 3, false)
      /\ enabled (step full_session (LapInput 3)) (StandingClick "VER") = false
      /\ enabled (run full_session repick_while_loading) (StandingClick "VER") = true).
Proof.
  pose proof (proj1 (panel_loading_follows_requests awaiting_second_race)
                (EventChange "5") (GetLaps "2023" "5") eq_refl) as H1.
  specialize (H1 ltac:(vm_compute; auto) eq_refl).
  pose proof (proj2 (proj2 (panel_loading_follows_requests awaiting_laps)) 1%nat
                (GetLaps "2023" "5") (Response true (laps_json [1; 2; 3]))) as H2.
  specialize (H2 ltac:(vm_compute; reflexivity) eq_refl).
  pose proof (proj2 (proj2 (panel_loading_follows_requests
                              (step awaiting_laps
                                 (Arrive 1 (Response true (laps_json [1; 2; 3]))))))
                2%nat (GetStandings "2023" "5" 1)
                (Response true (standings_json grid))) as H3.
  specialize (H3 ltac:(vm_compute; reflexivity) eq_refl).
  pose proof (proj1 (panel_loading_follows_requests full_session)
                (LapInput 3) (GetStandings "2023" "5" 3) eq_refl) as H4.
  specialize (H4 ltac:(vm_compute; auto) eq_refl).
  pose proof (proj1 (proj2 (panel_loading_follows_requests
                              (step full_session (LapInput 3))))
                (ChaserChange "HAM") eq_refl) as H5.
  cbv zeta in H4, H5. destruct H4 as [_ H4]. destruct H5 as [_ [_ H5]].
  specialize (H4 "VER"). specialize (H5 (row 1 "VER")).
  specialize (H5 ltac:(vm_compute; auto)).
  vm_compute in H1, H2, H3, H4, H5 |- *.
  exact (conj (proj1 H1) (conj H2 (conj H3 (conj eq_refl (conj eq_refl (conj H4 H5)))))).
Defined.

(** ** The three surfaces and the stored standings *)

Lemma rows_of_map (f : StandingRow -> bool) (rows : list StandingRow) :
  map fst (map (fun r => (r, f r)) rows) = rows.
Proof. rewrite map_map. cbn. apply map_id. Qed.

Ltac agree_case H :=
  destruct H as [Hp [Hc Hd]];
  unfold surfaces_agree, offered in *;
  unfold_methods; split_cases; cbn -[filter Z.max Math_min Math_max sanitize or_else];
  repeat split;
  try (intros rows0 Hrows0; try discriminate Hrows0;
       try (injection Hrows0 as <-; cbn [map fst]; rewrite ?rows_of_map; congruence);
       try (apply Hp; assumption));
  try assumption; try reflexivity; try congruence.

Lemma step_keeps_agreement (s : App) (e : event) :
  surfaces_agree s -> surfaces_agree (step s e).
Proof.
  intros H.
  destruct e as [v | v | v | v | v | d | | i r | n].
  1-7, 9: agree_case H.
  unfold step, exec, handler, bind, get.
  destruct (nth_error (requests s) i) as [[q [|]] |]; try exact H.
  destruct q; agree_case H.
  all: rewrite append_options; cbn; rewrite map_map; reflexivity.
Qed.

Lemma run_keeps_agreement (trace : list event) :
  forall s, surfaces_agree s -> surfaces_agree (run s trace).
Proof.
  induction trace as [| e trace IH]; intros s H; cbn; [exact H |].
  apply IH. apply step_keeps_agreement. exact H.
Qed.

(** X19: the rows on display and the options of both pick-lists always
    come from the stored standings: if they agree with them on the page the
    script starts on, they do after every sequence of events. So a row that
    can be clicked, and a driver that can be picked, is a driver of the
    stored standings (or the empty placeholder of a pick-list). *)
Theorem surfaces_show_stored_standings (page : Dom) (trace : list event) :
  surfaces_agree (new_app page) ->
  let s := run (new_app page) trace in
  surfaces_agree s
  /\ (forall d, enabled s (StandingClick d) = true -> In d (map driver (standings s)))
  /\ (forall v, enabled s (ChaserChange v) = true \/ enabled s (DefenderChange v) = true ->
        v <> "" -> In v (map driver (standings s))).
Proof.
  intros H0 s.
  assert (H : surfaces_agree s) by (apply run_keeps_agreement; exact H0).
  split; [exact H |]. destruct H as [Hp [Hc Hd]]. split.
  - intros d He. unfold enabled in He.
    destruct (pan_body (standingsList (dom s))) as [| | | rows] eqn:Hb;
      try discriminate He.
    rewrite <- (Hp rows eq_refl).
    apply existsb_exists in He. destruct He as [[r b] [Hin Hr]].
    apply String.eqb_eq in Hr. cbn in Hr. subst d.
    rewrite map_map. apply (in_map (fun x => driver (fst x)) rows (r, b) Hin).
  - assert (G : forall sel v, has_option v sel = true -> v <> "" ->
                              offered sel = "" :: map driver (standings s) ->
                              In v (map driver (standings s))).
    { intros sel v Ho Hv Hoff. unfold has_option in Ho.
      apply existsb_exists in Ho. destruct Ho as [[x t] [Hin Hx]].
      apply String.eqb_eq in Hx. cbn in Hx. subst x.
      apply (in_map fst) in Hin. cbn in Hin. fold (offered sel) in Hin.
      rewrite Hoff in Hin. destruct Hin as [Hin | Hin]; [congruence | exact Hin]. }
    intros v [He | He] Hv; unfold enabled in He;
      apply andb_prop in He; destruct He as [_ He].
    + exact (G _ v He Hv Hc).
    + exact (G _ v He Hv Hd).
Qed.

Lemma surfaces_show_stored_standings_witness :
  let s := run (new_app start_page) full_session_trace in
  surfaces_agree s
  /\ (forall d, enabled s (StandingClick d) = true -> In d (map driver (standings s)))
  /\ (forall v, enabled s (ChaserChange v) = true \/ enabled s (DefenderChange v) = true ->
        v <> "" -> In v (map driver (standings s))).
Proof.
  apply (surfaces_show_stored_standings start_page full_session_trace).
  repeat split; [intros rows H; discriminate H].
Defined.

(** ** The lap *)

Lemma step_keeps_laps_from_one (s : App) (e : event) :
  laps_from_one s -> enabled s e = true -> laps_from_one (step s e).
Proof.
  intros [Hs Hl] He.
  destruct e as [v | v | v | v | v | d | | i r | n].
  1-2, 4-7, 9: unfold laps_from_one; unfold_methods; split_cases;
    cbn -[filter Z.max Math_min Math_max sanitize or_else]; split; auto.
  - unfold enabled in He.
    apply andb_prop in He. destruct He as [He Hhi].
    apply andb_prop in He. destruct He as [Hen Hlo].
    apply negb_true_iff in Hen. specialize (Hs Hen).
    apply Z.leb_le in Hlo, Hhi.
    unfold laps_from_one. unfold_methods. split_cases;
      cbn -[filter Z.max Math_min Math_max sanitize or_else];
      (split; [intros _; exact Hs | intros lap Hlap; injection Hlap as <-; lia]).
  - unfold enabled in He.
    destruct (nth_error (requests s) i) as [[q [|]] |] eqn:Hq; try discriminate He.
    rewrite (step_arrive _ _ _ _ Hq).
    destruct q as [y | y n | y n l | y n l c d]; unfold resume.
    1, 3, 4: unfold laps_from_one; unfold_methods; split_cases;
      cbn -[filter Z.max Math_min Math_max sanitize or_else]; split; auto;
      try discriminate; intros lap Hlap; discriminate Hlap.
    destruct r as [| ok [| o]].
    1, 2: unfold laps_from_one; unfold_methods; split_cases;
      cbn -[filter Z.max Math_min Math_max sanitize or_else]; split; auto.
    destruct (valid_laps (raw_laps o)) as [| v vs] eqn:Hv.
    + unfold raw_laps, valid_laps in Hv. unfold laps_from_one. unfold_methods.
      cbn -[filter]. destruct (j_laps o) as [[| l ls] |]; cbn -[filter];
        rewrite ?Hv; cbn; destruct (middlePanel (dom s)); cbn; split; auto.
    + assert (Ho : j_laps o = Some (raw_laps o)).
      { unfold raw_laps in *. destruct (j_laps o); [reflexivity | discriminate Hv]. }
      destruct (loadLaps_resume_valid (set_requests (settle i (requests s)) s)
                  y n ok o (raw_laps o) v vs Ho Hv) as [Hsl [Hlap _]].
      assert (H1 : 1 <= Math_min v vs).
      { apply (valid_laps_positive (raw_laps o)). rewrite Hv. apply Math_min_least. }
      assert (H2 : Math_min v vs <= Math_max v vs).
      { destruct (Math_min_least vs v) as [Hin _].
        destruct (Math_max_greatest vs v) as [_ Hall].
        rewrite Forall_forall in Hall. auto. }
      unfold laps_from_one. rewrite Hsl, Hlap. cbn. split.
      * intros _. lia.
      * intros lap E. injection E as <-. exact H1.
Qed.

Lemma run_keeps_laps_from_one (trace : list event) :
  forall s, laps_from_one s -> feasible s trace = true -> laps_from_one (run s trace).
Proof.
  induction trace as [| e trace IH]; intros s H Hf; cbn; [exact H |].
  cbn in Hf. apply andb_prop in Hf. destruct Hf as [He Hf].
  apply IH; [apply step_keeps_laps_from_one; assumption | exact Hf].
Qed.

(** X20: on a page whose lap slider starts disabled, along every sequence
    of events the browser can deliver, the slider when enabled spans laps
    from 1 up, the lap recorded is never below 1, and so every move of the
    slider under a selected year and race asks for standings. *)
Theorem lap_never_below_one (page : Dom) (trace : list event) :
  sl_disabled (lapSlider page) = true ->
  feasible (new_app page) trace = true ->
  let s := run (new_app page) trace in
  (forall lap, currentLap s = Some lap -> 1 <= lap)
  /\ (forall v, enabled s (LapInput v) = true ->
        1 <= v
        /\ (truthy (currentYear s) && truthy (currentRound s) = true ->
            issued_by s (LapInput v)
            = [GetStandings (str (currentYear s)) (str (currentRound s)) v])).
Proof.
  intros Hd Hf s.
  assert (H : laps_from_one s).
  { apply run_keeps_laps_from_one; [| exact Hf].
    split; [cbn; rewrite Hd; discriminate | intros lap E; discriminate E]. }
  destruct H as [Hs Hl]. split; [exact Hl |].
  intros v He.
  assert (Hv : 1 <= v).
  { unfold enabled in He.
    apply andb_prop in He. destruct He as [He _].
    apply andb_prop in He. destruct He as [Hen Hlo].
    apply negb_true_iff in Hen. specialize (Hs Hen). apply Z.leb_le in Hlo. lia. }
  split; [exact Hv |].
  intros Hyr. rewrite (listener_issues s (LapInput v) eq_refl). unfold listener_fetch.
  rewrite Hyr. cbn. destruct (Z.eqb_spec v 0); [lia | reflexivity].
Qed.

Lemma lap_never_below_one_witness :
  let s := run (new_app start_page) overtaken_trace in
  currentLap s = Some 3
  /\ (forall lap, currentLap s = Some lap -> 1 <= lap)
  /\ (forall v, enabled s (LapInput v) = true ->
        1 <= v
        /\ (truthy (currentYear s) && truthy (currentRound s) = true ->
            issued_by s (LapInput v)
            = [GetStandings (str (currentYear s)) (str (currentRound s)) v])).
Proof.
  split; [vm_compute; reflexivity |].
  apply (lap_never_below_one start_page overtaken_trace); vm_compute; reflexivity.
Defined.
